(** * Haystack pipeline components: PromptBuilder and
      SentenceTransformersDocumentEmbedder

    A shallow embedding of
    - [haystack/components/embedders/sentence_transformers_document_embedder.py]
    - [haystack/components/builders/prompt_builder.py]

    Python objects that the code mutates in place (the Documents) live in
    an explicit store addressed by references, so that two entries of the
    input list may alias one Document.  Calls to the external collaborators
    (the backend factory and the backend's [embed]) are recorded in a call
    log, which is how "no embedding work was done" is observed. *)

From Stdlib Require Import ZArith Ascii String List Floats.
From stdpp Require Import gmap strings list fin_maps fin_sets pretty.

Local Open Scope string_scope.

(** ** Python values and exceptions *)

Module Py.

(** The values that can sit in a Document's [meta] mapping or be passed
    where a Document was expected.  The embedder observes such a value
    through [bool(v)] and [str(v)] only; [VOther] stands for an object of
    any other type (a float, a list, a dict, ...), given by these two
    observations. *)
Inductive PyVal : Type :=
  | VNone
  | VBool (b : bool)
  | VInt (z : Z)
  | VStr (s : string)
  | VOther (holds : bool) (text : string).

(** [bool(v)] *)
Definition truthy (v : PyVal) : bool :=
  match v with
  | VNone => false
  | VBool b => b
  | VInt z => negb (z =? 0)%Z
  | VStr s => match s with EmptyString => false | String _ _ => true end
  | VOther holds _ => holds
  end.

(** [str(v)] *)
Definition py_str (v : PyVal) : string :=
  match v with
  | VNone => "None"
  | VBool true => "True"
  | VBool false => "False"
  | VInt z => pretty z
  | VStr s => s
  | VOther _ text => text
  end.

(** [sep.join(parts)] *)
Definition join (sep : string) (parts : list string) : string :=
  String.concat sep parts.

(** [s or ""] for an optional string *)
Definition or_empty (s : option string) : string :=
  match s with
  | Some (String a r) => String a r
  | Some EmptyString | None => ""
  end.

Inductive PyExc : Type :=
  | TypeError (msg : string)
  | RuntimeError (msg : string)
  | AttributeError (attr : string)
  | TemplateSyntaxError (msg : string)
  | DeserializationError (msg : string)
  | ExternalError (msg : string).

End Py.

Import Py.

(** ** SentenceTransformersDocumentEmbedder *)

Module Embedder.

(** Modelled from the spec: the [Document] class is imported from
    [haystack] and is not part of the two source files.  The spec describes
    it as a record with at least [content] (optional text), [meta] (a
    mapping of string keys to values) and a mutable [embedding] (a sequence
    of floating-point numbers, initially unset).  [doc_id] and [doc_rest]
    hold the identifier and every remaining attribute. *)
Record Document : Type := mkDocument {
  doc_id : string;
  content : option string;
  meta : gmap string PyVal;
  embedding : option (list float);
  doc_rest : gmap string PyVal
}.

(** [doc.embedding = emb] *)
Definition set_embedding (emb : list float) (d : Document) : Document :=
  {| doc_id := doc_id d; content := content d; meta := meta d;
     embedding := Some emb; doc_rest := doc_rest d |}.

(** An element of the list handed to [run]:
    - [ERef l]: a reference to the Document that the store holds at [l]
      (to nothing that [run] can use when the store holds none there);
    - [EObj l]: a reference to an object that is not an instance of
      [Document] but carries the attributes [content], [meta] and
      [embedding]; the store keeps these attributes at [l];
    - [EVal v]: a plain value, which has none of these attributes. *)
Inductive Elem : Type :=
  | ERef (l : nat)
  | EObj (l : nat)
  | EVal (v : PyVal).

(** The argument [documents] of [run]: any Python object. *)
Inductive PyArg : Type :=
  | ANotList (v : PyVal)
  | AList (xs : list Elem).

(** [haystack.utils.Secret]: a literal token or a deferred reference to
    environment variables.  The embedder only stores it and passes it on. *)
Inductive Secret : Type :=
  | TokenSecret (value : string)
  | EnvVarSecret (variables : list string) (strict : bool).

(** The handle returned by the backend factory; [embed texts batch_size
    show_progress_bar normalize_embeddings] returns one vector per text or
    raises. *)
Record EmbeddingBackend : Type := mkBackend {
  embed : list string → Z → bool → bool → PyExc + list (list float)
}.

Record Component : Type := mkComponent {
  model : string;
  device : string;
  token : option Secret;
  prefix : string;
  suffix : string;
  batch_size : Z;
  progress_bar : bool;
  normalize_embeddings : bool;
  meta_fields_to_embed : list string;
  embedding_separator : string;
  (** [None] while the instance has no attribute [embedding_backend] *)
  embedding_backend : option EmbeddingBackend
}.

(** [__init__]; [device or "cpu"] and [meta_fields_to_embed or []]. *)
Definition init (model : string) (device : option string)
    (token : option Secret) (prefix suffix : string) (batch_size : Z)
    (progress_bar normalize_embeddings : bool)
    (meta_fields_to_embed : option (list string))
    (embedding_separator : string) : Component :=
  {| model := model;
     device := match device with
               | Some (String a r) => String a r
               | Some EmptyString | None => "cpu"
               end;
     token := token;
     prefix := prefix;
     suffix := suffix;
     batch_size := batch_size;
     progress_bar := progress_bar;
     normalize_embeddings := normalize_embeddings;
     meta_fields_to_embed := default [] meta_fields_to_embed;
     embedding_separator := embedding_separator;
     embedding_backend := None |}.

(** Calls that leave the component. *)
Inductive Call : Type :=
  | FactoryCall (model device : string) (auth_token : option Secret)
  | EmbedCall (texts : list string) (batch_size : Z)
      (show_progress_bar normalize_embeddings : bool).

(** The instance [self], the store of Documents and the log of external
    calls. *)
Record World : Type := mkWorld {
  this : Component;
  heap : gmap nat Document;
  calls : list Call
}.

(** State and exceptions: an exception leaves the state as it was when it
    was raised. *)
Definition M (A : Type) : Type := World → (PyExc + A) * World.

Definition ret {A} (a : A) : M A := λ w, (inr a, w).

Definition bind {A B} (m : M A) (k : A → M B) : M B :=
  λ w, match m w with
       | (inl e, w') => (inl e, w')
       | (inr a, w') => k a w'
       end.

Definition raise {A} (e : PyExc) : M A := λ w, (inl e, w).

Definition get_self : M Component := λ w, (inr (this w), w).
Definition get_heap : M (gmap nat Document) := λ w, (inr (heap w), w).

Definition put_self (c : Component) : M unit :=
  λ w, (inr tt, {| this := c; heap := heap w; calls := calls w |}).
Definition put_heap (h : gmap nat Document) : M unit :=
  λ w, (inr tt, {| this := this w; heap := h; calls := calls w |}).
Definition log (c : Call) : M unit :=
  λ w, (inr tt, {| this := this w; heap := heap w; calls := calls w ++ [c] |}).

Definition lift {A} (r : PyExc + A) : M A := λ w, (r, w).

Declare Scope py_scope.
Delimit Scope py_scope with py.
Notation "x <- m ;; k" := (bind m (λ x, k))
  (at level 100, m at next level, right associativity) : py_scope.
Notation "m ;; k" := (bind m (λ _, k))
  (at level 100, right associativity) : py_scope.
Local Open Scope py_scope.

(** [self.embedding_backend = b] *)
Definition with_backend (b : EmbeddingBackend) (c : Component) : Component :=
  {| model := model c; device := device c; token := token c;
     prefix := prefix c; suffix := suffix c; batch_size := batch_size c;
     progress_bar := progress_bar c;
     normalize_embeddings := normalize_embeddings c;
     meta_fields_to_embed := meta_fields_to_embed c;
     embedding_separator := embedding_separator c;
     embedding_backend := Some b |}.

(** [hasattr(self, "embedding_backend")] *)
Definition has_backend (c : Component) : bool :=
  match embedding_backend c with Some _ => true | None => false end.

(** The Document an element of the list denotes, when it is one. *)
Definition deref (h : gmap nat Document) (x : Elem) : option Document :=
  match x with
  | ERef l => h !! l
  | EObj _ | EVal _ => None
  end.

(** The attributes that [doc.meta], [doc.content] and [doc.embedding]
    reach on an element of the list; attribute access does not look at the
    class of the object. *)
Definition attributes (h : gmap nat Document) (x : Elem) : option Document :=
  match x with
  | ERef l | EObj l => h !! l
  | EVal _ => None
  end.

(** [isinstance(x, Document)] *)
Definition isinstance_Document (h : gmap nat Document) (x : Elem) : bool :=
  match deref h x with Some _ => true | None => false end.

(** The guard of [run]:
    [not isinstance(documents, list) or documents and not
    isinstance(documents[0], Document)]. *)
Definition rejected (h : gmap nat Document) (documents : PyArg) : bool :=
  match documents with
  | ANotList _ => true
  | AList xs =>
      match xs with
      | [] => false
      | x0 :: _ => negb (isinstance_Document h x0)
      end
  end.

Definition type_error_message : string :=
  "SentenceTransformersDocumentEmbedder expects a list of Documents as input." ++
  "In case you want to embed a list of strings, please use the SentenceTransformersTextEmbedder.".

Definition not_loaded_message : string :=
  "The embedding model has not been loaded. Please call warm_up() before running.".

(** [[str(doc.meta[key]) for key in fields if key in doc.meta and
    doc.meta[key]]] *)
Fixpoint meta_values_to_embed (fields : list string) (m : gmap string PyVal)
    : list string :=
  match fields with
  | [] => []
  | key :: rest =>
      match m !! key with
      | Some v =>
          if truthy v then py_str v :: meta_values_to_embed rest m
          else meta_values_to_embed rest m
      | None => meta_values_to_embed rest m
      end
  end.

(** [self.prefix + self.embedding_separator.join(meta_values_to_embed +
    [doc.content or ""]) + self.suffix] *)
Definition text_to_embed (self : Component) (doc : Document) : string :=
  prefix self ++
  join (embedding_separator self)
       (meta_values_to_embed (meta_fields_to_embed self) (meta doc)
          ++ [or_empty (content doc)]) ++
  suffix self.

(** One round of the first loop.  On something without the attributes
    the first attribute read raises [AttributeError]: [doc.meta] in the
    filter of the comprehension, or [doc.content] when no field is
    configured. *)
Definition text_of_elem (self : Component) (x : Elem) : M string :=
  h <- get_heap ;;
  match attributes h x with
  | Some doc => ret (text_to_embed self doc)
  | None =>
      match meta_fields_to_embed self with
      | [] => raise (AttributeError "content")
      | _ :: _ => raise (AttributeError "meta")
      end
  end.

(** [for doc in documents: ... texts_to_embed.append(text_to_embed)] *)
Fixpoint build_texts (self : Component) (documents : list Elem)
    (texts_to_embed : list string) : M (list string) :=
  match documents with
  | [] => ret texts_to_embed
  | doc :: rest =>
      t <- text_of_elem self doc ;;
      build_texts self rest (texts_to_embed ++ [t])
  end.

(** [doc.embedding = emb] on an element of the list *)
Definition assign_embedding (x : Elem) (emb : list float) : M unit :=
  h <- get_heap ;;
  match x with
  | ERef l | EObj l =>
      match h !! l with
      | Some doc => put_heap (<[l := set_embedding emb doc]> h)
      | None => raise (AttributeError "embedding")
      end
  | EVal _ => raise (AttributeError "embedding")
  end.

(** [for doc, emb in zip(documents, embeddings): doc.embedding = emb] *)
Fixpoint assign_all (pairs : list (Elem * list float)) : M unit :=
  match pairs with
  | [] => ret tt
  | (doc, emb) :: rest => assign_embedding doc emb ;; assign_all rest
  end.

Section WithFactory.

(** [_SentenceTransformersEmbeddingBackendFactory.get_embedding_backend]:
    the external factory, which returns a backend or raises. *)
Variable get_embedding_backend :
  string → string → option Secret → PyExc + EmbeddingBackend.

Definition warm_up : M unit :=
  self <- get_self ;;
  if negb (has_backend self) then
    log (FactoryCall (model self) (device self) (token self)) ;;
    b <- lift (get_embedding_backend (model self) (device self) (token self)) ;;
    self <- get_self ;;
    put_self (with_backend b self)
  else ret tt.

End WithFactory.

Definition run (documents : PyArg) : M (gmap string PyArg) :=
  self <- get_self ;;
  h <- get_heap ;;
  if rejected h documents then raise (TypeError type_error_message)
  else
    match embedding_backend self with
    | None => raise (RuntimeError not_loaded_message)
    | Some backend =>
        match documents with
        | ANotList _ =>
            (* not reached: the guard rejects everything but a list *)
            raise (TypeError type_error_message)
        | AList docs =>
            texts_to_embed <- build_texts self docs [] ;;
            log (EmbedCall texts_to_embed (batch_size self)
                   (progress_bar self) (normalize_embeddings self)) ;;
            embeddings <- lift (embed backend texts_to_embed (batch_size self)
                                  (progress_bar self)
                                  (normalize_embeddings self)) ;;
            assign_all (zip docs embeddings) ;;
            ret {[ "documents" := documents ]}
        end
    end.

(** *** Serialization and telemetry *)

(** [_get_telemetry_data] *)
Definition _get_telemetry_data (self : Component) : gmap string string :=
  {[ "model" := model self ]}.

(** A value of the configuration record; [PSecret] holds what
    [Secret.to_dict] returned. *)
Inductive ParamVal (SecretDict : Type) : Type :=
  | PNone
  | PBool (b : bool)
  | PInt (z : Z)
  | PStr (s : string)
  | PStrList (l : list string)
  | PSecret (d : SecretDict).

Arguments PNone {SecretDict}.
Arguments PBool {SecretDict} _.
Arguments PInt {SecretDict} _.
Arguments PStr {SecretDict} _.
Arguments PStrList {SecretDict} _.
Arguments PSecret {SecretDict} _.

(** Modelled from the spec: the plain configuration record that
    [default_to_dict] produces (framework code outside the two source
    files): the component's type name and its constructor parameters. *)
Record Config (SecretDict : Type) : Type := mkConfig {
  config_type : string;
  init_parameters : gmap string (ParamVal SecretDict)
}.

Arguments mkConfig {SecretDict} _ _.
Arguments config_type {SecretDict} _.
Arguments init_parameters {SecretDict} _.

Definition class_name : string :=
  "haystack.components.embedders.sentence_transformers_document_embedder.SentenceTransformersDocumentEmbedder".

Section WithSecret.

(** [Secret.to_dict] belongs to [haystack.utils]: it returns the
    serialized form of a secret or raises. *)
Variable SecretDict : Type.
Variable secret_to_dict : Secret → PyExc + SecretDict.

(** [self.token.to_dict() if self.token else None]; a [Secret] object is
    truthy, so the test separates [None] from a secret. *)
Definition token_to_dict (self : Component)
    : PyExc + ParamVal SecretDict :=
  match token self with
  | Some secret =>
      match secret_to_dict secret with
      | inl e => inl e
      | inr d => inr (PSecret d)
      end
  | None => inr PNone
  end.

(** [to_dict] *)
Definition to_dict (self : Component) : PyExc + Config SecretDict :=
  match token_to_dict self with
  | inl e => inl e
  | inr serialized_token =>
      inr {| config_type := class_name;
             init_parameters :=
               <[ "model" := PStr (model self) ]>
               (<[ "device" := PStr (device self) ]>
               (<[ "token" := serialized_token ]>
               (<[ "prefix" := PStr (prefix self) ]>
               (<[ "suffix" := PStr (suffix self) ]>
               (<[ "batch_size" := PInt (batch_size self) ]>
               (<[ "progress_bar" := PBool (progress_bar self) ]>
               (<[ "normalize_embeddings" :=
                     PBool (normalize_embeddings self) ]>
               (<[ "meta_fields_to_embed" :=
                     PStrList (meta_fields_to_embed self) ]>
               (<[ "embedding_separator" :=
                     PStr (embedding_separator self) ]> ∅))))))))) |}
  end.

End WithSecret.

Arguments token_to_dict {SecretDict} _ _.
Arguments to_dict {SecretDict} _ _.

End Embedder.

(** ** PromptBuilder *)

Module PromptBuilder.

(** Type annotations handed to the input registration. *)
Inductive TypeAnn : Type :=
  | Any
  | Named (name : string).

(** The input slots of a component belong to the component framework,
    which is not part of the two source files: a slot has a name, a type
    and a default value, [None] when no default was given. *)
Record InputSocket : Type := mkSocket {
  socket_name : string;
  socket_type : TypeAnn;
  default_value : option PyVal
}.

(** A slot is mandatory exactly when it has no default value. *)
Definition is_mandatory (socket : InputSocket) : bool :=
  match default_value socket with
  | None => true
  | Some _ => false
  end.

(** Modelled from the spec: the plain configuration record that
    [default_to_dict] produces and [default_from_dict] consumes (both are
    framework code outside the two source files): the component's type name
    and its constructor parameters. *)
Record Config : Type := mkConfig {
  config_type : string;
  init_parameters : gmap string PyVal
}.

Definition class_name : string :=
  "haystack.components.builders.prompt_builder.PromptBuilder".

(** Modelled from the spec: [default_to_dict], called with the instance
    and its constructor parameters as keywords,
    "converts a component to a plain configuration record" holding "exactly
    the constructor parameters". *)
Definition default_to_dict (cls : string) (params : gmap string PyVal)
    : Config :=
  {| config_type := cls; init_parameters := params |}.

(** Modelled from the spec: [default_from_dict(cls, data)] rebuilds the
    component by calling the constructor of the recorded type on the
    recorded constructor parameters ("reconstruction re-parses it and
    re-derives the input set"). *)
Definition default_from_dict {C : Type} (cls : string)
    (construct : gmap string PyVal → PyExc + C) (data : Config)
    : PyExc + C :=
  if String.eqb (config_type data) cls then construct (init_parameters data)
  else inl (DeserializationError (config_type data)).

(** The slot that [__init__] registers for a variable. *)
Definition slot_of (name : string) : InputSocket :=
  {| socket_name := name; socket_type := Any;
     default_value := Some (VStr "") |}.

Section WithJinja.

(** The template engine (jinja2) is an external library: its compiled
    templates and syntax trees are opaque, and compiling, parsing and
    rendering are functions of their arguments. *)
Variable Tmpl : Type.
Variable Ast : Type.
(** [jinja2.Template(source)] *)
Variable Template : string → PyExc + Tmpl.
(** [tmpl.environment.parse(source)] *)
Variable environment_parse : Tmpl → string → PyExc + Ast.
(** [jinja2.meta.find_undeclared_variables(ast)] *)
Variable find_undeclared_variables : Ast → gset string.
(** [tmpl.render(mapping)] *)
Variable render : Tmpl → gmap string PyVal → PyExc + string.

Record Component : Type := mkComponent {
  _template_string : string;
  template : Tmpl;
  (** the input slots registered on the instance *)
  inputs : gmap string InputSocket
}.

(** [component.set_input_type(instance, name, type, default)], of the
    component framework: it stores on the instance, under [name], a slot
    with this name, type and default value.  The fourth parameter is
    optional; [None] stands for a call that leaves it out. *)
Definition set_input_type (instance : Component) (name : string)
    (type : TypeAnn) (default : option PyVal) : Component :=
  {| _template_string := _template_string instance;
     template := template instance;
     inputs := <[name := {| socket_name := name; socket_type := type;
                            default_value := default |}]>
                 (inputs instance) |}.

(** [__init__]: the loop runs over a Python set, in whatever order the set
    is enumerated. *)
Definition init (template_str : string) : PyExc + Component :=
  match Template template_str with
  | inl e => inl e
  | inr tmpl =>
      match environment_parse tmpl template_str with
      | inl e => inl e
      | inr ast =>
          let template_variables := find_undeclared_variables ast in
          inr (set_fold
                 (λ var self, set_input_type self var Any (Some (VStr "")))
                 {| _template_string := template_str; template := tmpl;
                    inputs := ∅ |}
                 template_variables)
      end
  end.

(** The registration loop of [__init__], run over the variables in a given
    order. *)
Definition register_all (order : list string) (self : Component)
    : Component :=
  foldr (λ var self, set_input_type self var Any (Some (VStr ""))) self order.

(** [to_dict] *)
Definition to_dict (self : Component) : Config :=
  default_to_dict class_name {[ "template" := VStr (_template_string self) ]}.

(** The constructor called on a mapping of keyword arguments: it takes
    exactly the keyword [template]. *)
Definition init_kwargs (params : gmap string PyVal) : PyExc + Component :=
  match params !! "template" with
  | Some (VStr t) =>
      if bool_decide (dom params = {[ "template" ]}) then init t
      else inl (TypeError "__init__() got an unexpected keyword argument")
  | Some _ => inl (TypeError "Can't compile non template nodes")
  | None => inl (TypeError "__init__() missing 1 required positional argument: 'template'")
  end.

(** The class defines no [from_dict]; the framework falls back on
    [default_from_dict]. *)
Definition from_dict (data : Config) : PyExc + Component :=
  default_from_dict class_name init_kwargs data.

(** [run]: the keyword arguments arrive as one mapping *)
Definition run (self : Component) (kwargs : gmap string PyVal)
    : PyExc + gmap string string :=
  match render (template self) kwargs with
  | inl e => inl e
  | inr prompt => inr {[ "prompt" := prompt ]}
  end.

End WithJinja.

Arguments _template_string {Tmpl} _.
Arguments template {Tmpl} _.
Arguments inputs {Tmpl} _.
Arguments set_input_type {Tmpl} _ _ _ _.
Arguments register_all {Tmpl} _ _.
Arguments init {Tmpl Ast} _ _ _ _.
Arguments to_dict {Tmpl} _.
Arguments init_kwargs {Tmpl Ast} _ _ _ _.
Arguments from_dict {Tmpl Ast} _ _ _ _.
Arguments run {Tmpl} _ _ _.

End PromptBuilder.

(** ** Concrete instances

    Small concrete Documents, a backend, a factory and a template engine of
    the [{{ name }}] fragment, at which the statements below are
    evaluated. *)

Module Examples.
Import Embedder.

Definition newline : string := String (Ascii.ascii_of_nat 10) "".

Definition doc_hello : Document :=
  {| doc_id := "d0"; content := Some "hello"; meta := ∅;
     embedding := None; doc_rest := ∅ |}.

Definition doc_pizza : Document :=
  {| doc_id := "d1"; content := Some "I love pizza!";
     meta := {[ "title" := VStr "Food"; "page" := VInt 0;
                "note" := VStr ""; "year" := VInt 2024 ]};
     embedding := None; doc_rest := {[ "score" := VNone ]} |}.

Fixpoint float_of_nat (n : nat) : float :=
  match n with
  | O => 0%float
  | S k => (float_of_nat k + 1)%float
  end.

(** A backend whose vector for the text at position [i] is [[i; 1]]. *)
Definition position_backend : EmbeddingBackend :=
  {| embed := λ texts _ _ _,
       inr (imap (λ i _, [float_of_nat i; 1%float]) texts) |}.

Definition position_factory (model device : string)
    (auth_token : option Secret) : PyExc + EmbeddingBackend :=
  inr position_backend.

Definition failing_factory (model device : string)
    (auth_token : option Secret) : PyExc + EmbeddingBackend :=
  inl (ExternalError "model not found").

Definition question_embedder : Component :=
  init "sentence-transformers/all-mpnet-base-v2" None
    (Some (EnvVarSecret ["HF_API_TOKEN"] false)) "Q: " " /Q" 32 true false
    None newline.

Definition meta_embedder : Component :=
  init "sentence-transformers/all-mpnet-base-v2" (Some "cuda") None "" "" 32
    true false (Some ["title"; "page"; "author"; "note"; "year"]) newline.

Definition cold_world : World :=
  {| this := question_embedder;
     heap := {[ 0 := doc_hello; 1 := doc_pizza ]};
     calls := [] |}.

Definition warm_world : World :=
  {| this := with_backend position_backend question_embedder;
     heap := {[ 0 := doc_hello; 1 := doc_pizza ]};
     calls := [FactoryCall "sentence-transformers/all-mpnet-base-v2" "cpu"
                 (Some (EnvVarSecret ["HF_API_TOKEN"] false))] |}.

(** A list whose first element is a Document and whose second is a plain
    string. *)
Definition mixed_list : PyArg := AList [ERef 0; EVal (VStr "plain text")].

(** A list whose first element is a Document and whose second is an object
    of another class that carries the attributes of one. *)
Definition duck_list : PyArg := AList [ERef 0; EObj 1].

End Examples.

(** A template engine for the fragment of templates made of plain text and
    [{{ name }}] placeholders. *)
Module MiniEngine.

Inductive Segment : Type :=
  | Text (s : string)
  | Var (name : string).

Fixpoint drop_spaces (s : string) : string :=
  match s with
  | String c r => if Ascii.eqb c " "%char then drop_spaces r else s
  | EmptyString => s
  end.

Definition strip (s : string) : string :=
  String.rev (drop_spaces (String.rev (drop_spaces s))).

Definition map_ok {A B} (f : A → B) (r : PyExc + A) : PyExc + B :=
  match r with
  | inl e => inl e
  | inr a => inr (f a)
  end.

(** [acc] holds, reversed, the characters read since the last delimiter. *)
Fixpoint scan (s : string) (in_var : bool) (acc : string)
    : PyExc + list Segment :=
  match s with
  | EmptyString =>
      if in_var then inl (TemplateSyntaxError "unexpected end of template")
      else inr [Text (String.rev acc)]
  | String c r =>
      match r with
      | String c2 r2 =>
          if in_var then
            if Ascii.eqb c "}"%char && Ascii.eqb c2 "}"%char
            then map_ok (cons (Var (strip (String.rev acc)))) (scan r2 false "")
            else scan r true (String c acc)
          else
            if Ascii.eqb c "{"%char && Ascii.eqb c2 "{"%char
            then map_ok (cons (Text (String.rev acc))) (scan r2 true "")
            else scan r false (String c acc)
      | EmptyString => scan r in_var (String c acc)
      end
  end.

Definition Template (source : string) : PyExc + list Segment :=
  scan source false "".

Definition environment_parse (tmpl : list Segment) (source : string)
    : PyExc + list Segment :=
  scan source false "".

Definition find_undeclared_variables (ast : list Segment) : gset string :=
  list_to_set
    (omap (λ seg, match seg with Var name => Some name | Text _ => None end)
       ast).

Definition render_segment (mapping : gmap string PyVal) (seg : Segment)
    : string :=
  match seg with
  | Text s => s
  | Var name =>
      match mapping !! name with
      | Some v => py_str v
      | None => ""
      end
  end.

Definition render (tmpl : list Segment) (mapping : gmap string PyVal)
    : PyExc + string :=
  inr (String.concat "" (render_segment mapping <$> tmpl)).

Definition translate_template : string :=
  "Translate to {{ target_language }}. Context: {{ snippet }}".

Definition translate_inputs : gmap string PyVal :=
  {[ "target_language" := VStr "spanish";
     "snippet" := VStr "I can't speak spanish." ]}.

End MiniEngine.

(** ** Properties of the embedder *)

Module EmbedderFacts.
Import Embedder.
Local Open Scope py_scope.

Ltac unfold_monad :=
  unfold bind, ret, raise, lift, get_self, get_heap, put_self, put_heap, log
    in *.

(** The spec's wording of the filter: the field's key is present in the
    mapping and its value is truthy. *)
Definition field_selected (m : gmap string PyVal) (key : string) : Prop :=
  ∃ v, m !! key = Some v ∧ truthy v = true.

Global Instance field_selected_dec m key : Decision (field_selected m key).
Proof.
  unfold field_selected. destruct (m !! key) as [v|] eqn:Hkey.
  - destruct (truthy v) eqn:Hv.
    + left. eauto.
    + right. intros (v' & [= <-] & Hv'). congruence.
  - right. intros (v' & [=] & _).
Defined.

Global Instance PyVal_inhabited : Inhabited PyVal := populate VNone.

(** The spec's wording of the text: the stringified values of the selected
    fields, then the content or the empty string, joined by the separator,
    between the prefix and the suffix. *)
Definition embedded_text (self : Component) (doc : Document) : string :=
  prefix self ++
  join (embedding_separator self)
    (((λ key, py_str (meta doc !!! key)) <$>
        filter (field_selected (meta doc)) (meta_fields_to_embed self))
     ++ [default "" (content doc)]) ++
  suffix self.

(** What the spec calls a list of Documents: a list, each element of which
    is a Document of the store. *)
Definition is_list_of_documents (h : gmap nat Document) (documents : PyArg)
    : bool :=
  match documents with
  | ANotList _ => false
  | AList xs => forallb (isinstance_Document h) xs
  end.

(** The fields of a Document other than [embedding] agree. *)
Definition same_but_embedding (d d' : Document) : Prop :=
  doc_id d' = doc_id d ∧ content d' = content d ∧ meta d' = meta d ∧
  doc_rest d' = doc_rest d.

(** The references among the elements of a list. *)
Definition target (x : Elem) : option nat :=
  match x with
  | ERef l | EObj l => Some l
  | EVal _ => None
  end.

Definition refs (xs : list Elem) : list nat := omap target xs.

Definition arg_refs (documents : PyArg) : list nat :=
  match documents with
  | ANotList _ => []
  | AList xs => refs xs
  end.

(** The store after the assignments [pairs], performed from left to
    right. *)
Definition write (h : gmap nat Document) (p : nat * list float)
    : gmap nat Document :=
  alter (set_embedding p.2) p.1 h.

Definition write_all (h : gmap nat Document) (pairs : list (nat * list float))
    : gmap nat Document :=
  foldl write h pairs.

(** *** The first loop *)

Lemma deref_attributes h x d :
  deref h x = Some d → attributes h x = Some d.
Proof. by destruct x. Qed.

Lemma build_texts_frame self docs acc w :
  (build_texts self docs acc w).2 = w.
Proof.
  revert acc. induction docs as [|x docs IH]; intros acc; simpl; [done|].
  unfold text_of_elem. unfold_monad.
  destruct (attributes (heap w) x); simpl; [apply IH|].
  by destruct (meta_fields_to_embed self).
Qed.

Lemma build_texts_ok self docs ds acc w :
  mapM (deref (heap w)) docs = Some ds →
  build_texts self docs acc w =
    (inr (acc ++ (text_to_embed self <$> ds))%list, w).
Proof.
  revert ds acc. induction docs as [|x docs IH]; intros ds acc Hds.
  - apply mapM_Some in Hds. apply Forall2_nil_inv_l in Hds as ->.
    simpl. by rewrite app_nil_r.
  - apply mapM_Some in Hds.
    apply Forall2_cons_inv_l in Hds as (d & ds' & Hx & Hrest & ->).
    simpl. unfold text_of_elem. unfold_monad.
    rewrite (deref_attributes _ _ _ Hx). simpl.
    rewrite (IH ds'); [|by apply mapM_Some].
    by rewrite <- app_assoc.
Qed.

(** *** The second loop *)

Lemma assign_embedding_target x emb w :
  assign_embedding x emb w =
    match target x with
    | Some l =>
        match heap w !! l with
        | Some doc =>
            (inr tt, {| this := this w;
                        heap := <[l:=set_embedding emb doc]> (heap w);
                        calls := calls w |})
        | None => (inl (AttributeError "embedding"), w)
        end
    | None => (inl (AttributeError "embedding"), w)
    end.
Proof.
  unfold assign_embedding. unfold_monad.
  destruct x as [l|l|v]; simpl; [| |done]; by destruct (heap w !! l).
Qed.

Lemma assign_all_frame pairs w :
  this (assign_all pairs w).2 = this w ∧
  calls (assign_all pairs w).2 = calls w ∧
  ∀ l, option_Forall2 same_but_embedding
         (heap w !! l) (heap (assign_all pairs w).2 !! l) ∧
       (l ∉ refs pairs.*1 → heap (assign_all pairs w).2 !! l = heap w !! l).
Proof.
  assert (Hrefl : ∀ (h : gmap nat Document) l,
            option_Forall2 same_but_embedding (h !! l) (h !! l)).
  { intros h l. destruct (h !! l); constructor. by repeat split. }
  revert w. induction pairs as [|[x emb] pairs IH]; intros w; simpl.
  { repeat split; auto. }
  unfold bind. rewrite (assign_embedding_target x emb w).
  unfold refs. simpl omap. fold (refs pairs.*1).
  destruct (target x) as [l0|]; [|simpl; repeat split; auto].
  destruct (heap w !! l0) as [d0|] eqn:Hl0; simpl; [|repeat split; auto].
  set (w1 := {| this := this w;
                heap := <[l0:=set_embedding emb d0]> (heap w);
                calls := calls w |}).
  destruct (IH w1) as (Hthis & Hcalls & Hheap).
  split; [done|]. split; [done|]. intros l.
  destruct (Hheap l) as [Hsame Hother]. split.
  - destruct (decide (l = l0)) as [->|Hne].
    + revert Hsame. simpl. rewrite lookup_insert_eq, Hl0.
      inversion 1 as [? d' Hd|]; subst. constructor.
      destruct Hd as (? & ? & ? & ?). by repeat split.
    + revert Hsame. simpl. by rewrite lookup_insert_ne.
  - intros Hnot. apply not_elem_of_cons in Hnot as [Hne Hnot].
    rewrite Hother by done. simpl. by rewrite lookup_insert_ne.
Qed.

Lemma insert_set_embedding (h : gmap nat Document) l d emb :
  h !! l = Some d → <[l:=set_embedding emb d]> h = write h (l, emb).
Proof.
  intros Hl. unfold write. simpl. apply map_eq. intros i.
  destruct (decide (i = l)) as [->|Hne].
  - by rewrite lookup_insert_eq, lookup_alter_eq, Hl.
  - by rewrite lookup_insert_ne, lookup_alter_ne.
Qed.

Lemma write_is_Some (h : gmap nat Document) p l :
  is_Some (write h p !! l) ↔ is_Some (h !! l).
Proof.
  unfold write. destruct (decide (p.1 = l)) as [<-|Hne].
  - rewrite lookup_alter_eq. by rewrite fmap_is_Some.
  - by rewrite lookup_alter_ne.
Qed.

Lemma assign_all_ok (locs : list nat) (embs : list (list float)) w :
  Forall (λ l, is_Some (heap w !! l)) locs →
  assign_all (zip (ERef <$> locs) embs) w =
    (inr tt, {| this := this w;
                heap := write_all (heap w) (zip locs embs);
                calls := calls w |}).
Proof.
  revert embs w. induction locs as [|l locs IH]; intros embs w Hall.
  { simpl. unfold_monad. by destruct w. }
  destruct embs as [|emb embs].
  { simpl. unfold_monad. by destruct w. }
  inversion Hall as [|? ? [d Hd] Hrest]; subst.
  simpl. unfold assign_embedding. unfold_monad. rewrite Hd. simpl.
  rewrite IH; simpl.
  - by rewrite (insert_set_embedding _ _ _ _ Hd).
  - eapply Forall_impl; [exact Hrest|]. intros l' Hl'. simpl.
    rewrite (insert_set_embedding _ _ _ _ Hd). by apply write_is_Some.
Qed.

Lemma write_all_other (h : gmap nat Document) pairs l :
  l ∉ pairs.*1 → write_all h pairs !! l = h !! l.
Proof.
  revert h. induction pairs as [|[l0 e0] pairs IH]; intros h Hnot; [done|].
  apply not_elem_of_cons in Hnot as [Hne Hnot].
  simpl. rewrite IH by done. unfold write. simpl.
  by rewrite lookup_alter_ne.
Qed.

Lemma write_all_last (h : gmap nat Document) locs embs i l e :
  is_Some (h !! l) →
  locs !! i = Some l → embs !! i = Some e →
  (∀ j, i < j → locs !! j ≠ Some l) →
  embedding <$> write_all h (zip locs embs) !! l = Some (Some e).
Proof.
  revert h embs i. induction locs as [|l0 locs IH]; intros h embs i Hin Hi He Hlast.
  { by rewrite lookup_nil in Hi. }
  destruct embs as [|e0 embs]; [by rewrite lookup_nil in He|].
  destruct i as [|i]; simpl in *.
  - injection Hi as ->. injection He as ->.
    rewrite write_all_other.
    + unfold write. simpl. rewrite lookup_alter_eq.
      destruct Hin as [d ->]. done.
    + intros Hel. apply list_elem_of_fmap in Hel as [[l' e'] [-> Hel]].
      apply list_elem_of_lookup in Hel as [j Hj].
      apply lookup_zip_with_Some in Hj as (? & ? & [= <- <-] & Hj & _).
      apply (Hlast (S j)); [lia|done].
  - apply (IH _ _ i); auto.
    + by apply write_is_Some.
    + intros j Hj. apply (Hlast (S j)). lia.
Qed.

(** *** Input validation *)

Lemma run_rejected documents w :
  rejected (heap w) documents = true →
  run documents w = (inl (TypeError type_error_message), w).
Proof. intros Hrej. unfold run. unfold_monad. by rewrite Hrej. Qed.

Lemma rejected_list_of_documents h documents :
  is_list_of_documents h documents = true → rejected h documents = false.
Proof.
  destruct documents as [v|[|x xs]]; simpl; [discriminate|done|].
  intros [-> _]%andb_prop. done.
Qed.

(** C1, as amended: when [documents] is not a list, or is a non-empty list
    whose first element is not a Document, [run] raises the [TypeError]
    whose message names the expected input, and it leaves the instance,
    every Document and the log of backend calls as they were, whether or
    not [warm_up] has run. *)
Theorem run_type_error_on_first_element (documents : PyArg) (w : World) :
  ((∀ xs, documents ≠ AList xs) ∨
   (∃ x xs, documents = AList (x :: xs) ∧
            isinstance_Document (heap w) x = false)) →
  run documents w = (inl (TypeError type_error_message), w) ∧
  String.prefix
    "SentenceTransformersDocumentEmbedder expects a list of Documents as input."
    type_error_message = true.
Proof.
  intros Hshape. split; [|reflexivity].
  apply run_rejected.
  destruct Hshape as [Hnolist|(x & xs & -> & Hx)].
  - destruct documents as [v|xs]; [done|]. by destruct (Hnolist xs).
  - simpl. by rewrite Hx.
Qed.

Lemma run_type_error_on_first_element_witness :
  run (AList [EVal (VStr "plain text"); ERef 0]) Examples.warm_world =
    (inl (TypeError type_error_message), Examples.warm_world) ∧
  String.prefix
    "SentenceTransformersDocumentEmbedder expects a list of Documents as input."
    type_error_message = true.
Proof.
  apply (run_type_error_on_first_element
           (AList [EVal (VStr "plain text"); ERef 0]) Examples.warm_world).
  right. exists (EVal (VStr "plain text")), [ERef 0]. split; reflexivity.
Defined.

(** C1, as stated, fails: a list whose first element is a Document and
    whose second is a string is not a list of Documents, yet before
    [warm_up] the call raises the not-ready [RuntimeError], and after
    [warm_up] it raises [AttributeError] from the first loop. *)
Lemma run_accepts_list_with_non_document :
  ¬ (∀ (documents : PyArg) (w : World),
       is_list_of_documents (heap w) documents = false →
       ∃ msg, (run documents w).1 = inl (TypeError msg)).
Proof.
  intros Hclaim.
  destruct (Hclaim Examples.mixed_list Examples.cold_world) as [msg Hmsg].
  - reflexivity.
  - vm_compute in Hmsg. discriminate.
Qed.

Example run_mixed_list_cold :
  (run Examples.mixed_list Examples.cold_world).1 =
    inl (RuntimeError not_loaded_message).
Proof. reflexivity. Qed.

Example run_mixed_list_warm :
  run Examples.mixed_list Examples.warm_world =
    (inl (AttributeError "content"), Examples.warm_world).
Proof. reflexivity. Qed.

(** *** Readiness *)

(** C5: on a non-empty list of Documents, [run] on an instance without a
    backend raises the not-ready [RuntimeError]; the instance, the
    Documents (so their embeddings) and the log of backend calls are left
    as they were. *)
Theorem run_before_warm_up (xs : list Elem) (w : World) :
  xs ≠ [] →
  is_list_of_documents (heap w) (AList xs) = true →
  embedding_backend (this w) = None →
  run (AList xs) w = (inl (RuntimeError not_loaded_message), w).
Proof.
  intros _ Hdocs Hcold. unfold run. unfold_monad.
  rewrite (rejected_list_of_documents _ _ Hdocs). by rewrite Hcold.
Qed.

Lemma run_before_warm_up_witness :
  run (AList [ERef 0; ERef 1]) Examples.cold_world =
    (inl (RuntimeError not_loaded_message), Examples.cold_world).
Proof.
  apply (run_before_warm_up [ERef 0; ERef 1] Examples.cold_world).
  - discriminate.
  - reflexivity.
  - reflexivity.
Defined.

(** C10: the empty list does not bypass the readiness check: without a
    backend [run([])] raises the not-ready [RuntimeError]; with a backend
    it calls [embed] exactly once, on the empty list of texts, touches
    nothing else, and once [embed] returns the result is the empty list
    under the key [documents]. *)
Theorem run_empty_list (w : World) :
  (embedding_backend (this w) = None →
   run (AList []) w = (inl (RuntimeError not_loaded_message), w)) ∧
  (∀ b, embedding_backend (this w) = Some b →
     (run (AList []) w).2 =
       {| this := this w; heap := heap w;
          calls := calls w ++
            [EmbedCall [] (batch_size (this w)) (progress_bar (this w))
               (normalize_embeddings (this w))] |} ∧
     ∀ embeddings,
       embed b [] (batch_size (this w)) (progress_bar (this w))
         (normalize_embeddings (this w)) = inr embeddings →
       (run (AList []) w).1 = inr {[ "documents" := AList [] ]}).
Proof.
  split.
  - intros Hcold. unfold run. unfold_monad. simpl. by rewrite Hcold.
  - intros b Hwarm. unfold run. unfold_monad. simpl. rewrite Hwarm. simpl.
    destruct (embed b [] _ _ _) as [e|embeddings] eqn:Hembed; simpl.
    + split; [done|]. discriminate.
    + split; [done|]. done.
Qed.

Lemma run_empty_list_witness :
  run (AList []) Examples.cold_world =
    (inl (RuntimeError not_loaded_message), Examples.cold_world) ∧
  (run (AList []) Examples.warm_world).1 = inr {[ "documents" := AList [] ]}.
Proof.
  split.
  - apply (proj1 (run_empty_list Examples.cold_world)). reflexivity.
  - apply (proj2 (proj2 (run_empty_list Examples.warm_world)
                    Examples.position_backend eq_refl) []).
    reflexivity.
Defined.

(** *** The text handed to the backend *)

Lemma meta_values_to_embed_filter fields (m : gmap string PyVal) :
  meta_values_to_embed fields m =
    (λ key, py_str (m !!! key)) <$> filter (field_selected m) fields.
Proof.
  induction fields as [|key fields IH]; [done|].
  simpl. rewrite filter_cons.
  destruct (m !! key) as [v|] eqn:Hkey.
  - destruct (truthy v) eqn:Hv.
    + rewrite decide_True by (exists v; done).
      simpl. rewrite IH. f_equal.
      by rewrite lookup_total_alt, Hkey.
    + rewrite decide_False; [done|].
      intros (v' & Hv' & Ht). congruence.
  - rewrite decide_False; [done|].
    intros (v' & Hv' & _). congruence.
Qed.

Lemma or_empty_default s : or_empty s = default "" s.
Proof. by destruct s as [[|a r]|]. Qed.

Lemma text_to_embed_spec self doc :
  text_to_embed self doc = embedded_text self doc.
Proof.
  unfold text_to_embed, embedded_text.
  by rewrite meta_values_to_embed_filter, or_empty_default.
Qed.

Lemma mapM_deref_rejected h xs ds :
  mapM (deref h) xs = Some ds → rejected h (AList xs) = false.
Proof.
  intros Hds. apply mapM_Some in Hds.
  destruct Hds as [|x d xs ds Hx _]; simpl; [done|].
  unfold isinstance_Document. by rewrite Hx.
Qed.

(** C2: when every element of the list is a Document, the one call made to
    the backend receives, for each Document in order, the text prefix +
    separator-joined (stringified selected meta values, then the content or
    the empty string) + suffix; with prefix "Q: ", suffix " /Q", no meta
    field and content "hello" that text is "Q: hello /Q". *)
Theorem run_texts_to_embed (xs : list Elem) (ds : list Document)
    (b : EmbeddingBackend) (w : World) :
  embedding_backend (this w) = Some b →
  Forall2 (λ x d, deref (heap w) x = Some d) xs ds →
  calls (run (AList xs) w).2 =
    (calls w ++
     [EmbedCall (embedded_text (this w) <$> ds) (batch_size (this w))
        (progress_bar (this w)) (normalize_embeddings (this w))])%list ∧
  (∀ doc, prefix (this w) = "Q: " → suffix (this w) = " /Q" →
          meta_fields_to_embed (this w) = [] → content doc = Some "hello" →
          embedded_text (this w) doc = "Q: hello /Q").
Proof.
  intros Hwarm Hds. split.
  - apply mapM_Some in Hds.
    unfold run. unfold_monad. cbv beta iota.
    rewrite (mapM_deref_rejected _ _ _ Hds), Hwarm.
    rewrite (build_texts_ok _ _ ds [] w Hds). simpl.
    assert (Htexts : text_to_embed (this w) <$> ds =
                     embedded_text (this w) <$> ds).
    { apply list_fmap_ext. intros _ d _. apply text_to_embed_spec. }
    rewrite Htexts.
    destruct (embed b _ _ _ _) as [e|embeddings]; simpl; [done|].
    match goal with
    | |- context [assign_all ?ps ?w1] =>
        destruct (assign_all_frame ps w1) as (_ & Hcalls & _);
        destruct (assign_all ps w1) as [[e|[]] w2]; simpl in *; exact Hcalls
    end.
  - intros doc Hp Hs Hf Hc. unfold embedded_text.
    by rewrite Hp, Hs, Hf, Hc.
Qed.

Lemma run_texts_to_embed_witness :
  calls (run (AList [ERef 0]) Examples.warm_world).2 =
    (calls Examples.warm_world ++ [EmbedCall ["Q: hello /Q"] 32 true false])%list.
Proof.
  apply (proj1 (run_texts_to_embed [ERef 0] [Examples.doc_hello]
                  Examples.position_backend Examples.warm_world
                  eq_refl ltac:(repeat constructor))).
Defined.

(** C3: a configured field contributes its stringified value exactly when
    its key is present in the Document's meta and the value is truthy; a
    present key whose value is the integer zero or the empty string is
    dropped like an absent one, and building the text of a Document never
    raises, whatever its meta holds. *)
Theorem meta_field_included_iff_present_and_truthy
    (self : Component) (doc : Document) :
  meta_values_to_embed (meta_fields_to_embed self) (meta doc) =
    ((λ key, py_str (meta doc !!! key)) <$>
       filter (field_selected (meta doc)) (meta_fields_to_embed self)) ∧
  (∀ key, field_selected (meta doc) key ↔
          key ∈ dom (meta doc) ∧ truthy (meta doc !!! key) = true) ∧
  (∀ key, meta doc !! key = Some (VInt 0) →
          ¬ field_selected (meta doc) key) ∧
  (∀ key, meta doc !! key = Some (VStr "") →
          ¬ field_selected (meta doc) key) ∧
  (∀ l w, heap w !! l = Some doc →
     text_of_elem self (ERef l) w = (inr (text_to_embed self doc), w)).
Proof.
  split; [apply meta_values_to_embed_filter|].
  split; [|split; [|split]].
  - intros key. unfold field_selected. rewrite elem_of_dom, lookup_total_alt.
    split.
    + intros (v & Hkey & Hv). rewrite Hkey. eauto.
    + intros [[v Hkey] Hv]. rewrite Hkey in Hv. eauto.
  - intros key Hkey (v & Hv & Ht). rewrite Hkey in Hv.
    injection Hv as <-. discriminate.
  - intros key Hkey (v & Hv & Ht). rewrite Hkey in Hv.
    injection Hv as <-. discriminate.
  - intros l w Hl. unfold text_of_elem. unfold_monad. simpl.
    by rewrite Hl.
Qed.

Lemma meta_field_included_iff_present_and_truthy_witness :
  meta_values_to_embed (meta_fields_to_embed Examples.meta_embedder)
    (meta Examples.doc_pizza) = ["Food"; "2024"] ∧
  ¬ field_selected (meta Examples.doc_pizza) "page" ∧
  ¬ field_selected (meta Examples.doc_pizza) "note".
Proof.
  pose proof (meta_field_included_iff_present_and_truthy
                Examples.meta_embedder Examples.doc_pizza)
    as (Hvalues & _ & Hzero & Hempty & _).
  split; [|split].
  - rewrite Hvalues. reflexivity.
  - apply Hzero. reflexivity.
  - apply Hempty. reflexivity.
Defined.

(** *** The result and the embeddings *)

(** C4: on a non-empty list of Documents, with a backend that returns one
    vector per text, [run] returns under [documents] the very list it was
    given (same references, same length, same order); its assignments are,
    from left to right, the i-th vector to the i-th Document, none missing;
    and afterwards a Document holds the vector of its position (of its last
    position, should the list name it more than once). *)
Theorem run_embeds_in_order (locs : list nat) (ds : list Document)
    (b : EmbeddingBackend) (embeddings : list (list float)) (w : World) :
  locs ≠ [] →
  Forall2 (λ l d, heap w !! l = Some d) locs ds →
  embedding_backend (this w) = Some b →
  embed b (text_to_embed (this w) <$> ds) (batch_size (this w))
    (progress_bar (this w)) (normalize_embeddings (this w)) = inr embeddings →
  length embeddings = length locs →
  let documents := AList (ERef <$> locs) in
  (run documents w).1 = inr {[ "documents" := documents ]} ∧
  heap (run documents w).2 = write_all (heap w) (zip locs embeddings) ∧
  (∀ i l, locs !! i = Some l →
     ∃ emb, embeddings !! i = Some emb ∧
            zip locs embeddings !! i = Some (l, emb)) ∧
  (∀ i l emb, locs !! i = Some l → embeddings !! i = Some emb →
     (∀ j, i < j → locs !! j ≠ Some l) →
     embedding <$> heap (run documents w).2 !! l = Some (Some emb)).
Proof.
  intros _ Hds Hwarm Hembed Hlen documents.
  assert (HmapM : mapM (deref (heap w)) (ERef <$> locs) = Some ds).
  { apply mapM_Some. by apply Forall2_fmap_l. }
  assert (Hall : Forall (λ l, is_Some (heap w !! l)) locs).
  { apply Forall_forall. intros l Hl.
    apply list_elem_of_lookup in Hl as [i Hi].
    destruct (Forall2_lookup_l _ _ _ _ _ Hds Hi) as (d & _ & Hd). eauto. }
  assert (Hrun : run documents w =
            (inr {[ "documents" := documents ]},
             {| this := this w;
                heap := write_all (heap w) (zip locs embeddings);
                calls := (calls w ++
                  [EmbedCall (text_to_embed (this w) <$> ds)
                     (batch_size (this w)) (progress_bar (this w))
                     (normalize_embeddings (this w))])%list |})).
  { unfold documents, run. unfold_monad. cbv beta iota.
    rewrite (mapM_deref_rejected _ _ _ HmapM), Hwarm.
    rewrite (build_texts_ok _ _ ds [] w HmapM). simpl.
    rewrite Hembed. by rewrite assign_all_ok. }
  rewrite Hrun. simpl. split; [done|]. split; [done|]. split.
  - intros i l Hi.
    destruct (lookup_lt_is_Some_2 embeddings i) as [emb Hemb].
    { rewrite Hlen. by eapply lookup_lt_Some. }
    exists emb. split; [done|].
    apply lookup_zip_with_Some. eauto.
  - intros i l emb Hi Hemb Hlast.
    apply (write_all_last _ _ _ i); auto.
    destruct (Forall2_lookup_l _ _ _ _ _ Hds Hi) as (d & _ & Hd). eauto.
Qed.

Lemma run_embeds_in_order_witness :
  let documents := AList (ERef <$> [1; 0; 1]) in
  (run documents Examples.warm_world).1 = inr {[ "documents" := documents ]} ∧
  embedding <$> heap (run documents Examples.warm_world).2 !! 0 =
    Some (Some [1%float; 1%float]) ∧
  embedding <$> heap (run documents Examples.warm_world).2 !! 1 =
    Some (Some [2%float; 1%float]).
Proof.
  destruct (run_embeds_in_order [1; 0; 1]
              [Examples.doc_pizza; Examples.doc_hello; Examples.doc_pizza]
              Examples.position_backend
              [[0%float; 1%float]; [1%float; 1%float]; [2%float; 1%float]]
              Examples.warm_world)
    as (Hres & _ & _ & Hfinal).
  - discriminate.
  - repeat constructor.
  - reflexivity.
  - reflexivity.
  - reflexivity.
  - split; [exact Hres|]. split.
    + apply (Hfinal 1); [reflexivity|reflexivity|].
      intros [|[|[|j]]] Hj; try lia; discriminate.
    + apply (Hfinal 2); [reflexivity|reflexivity|].
      intros [|[|[|j]]] Hj; try lia; discriminate.
Defined.

(** *** What [run] leaves alone *)

Lemma refs_zip_fst (xs : list Elem) (embs : list (list float)) l :
  l ∈ refs (zip xs embs).*1 → l ∈ refs xs.
Proof.
  revert embs. induction xs as [|x xs IH]; intros [|e embs]; simpl;
    try (intros H; by apply elem_of_nil in H).
  unfold refs. simpl omap. fold (refs (zip xs embs).*1). fold (refs xs).
  destruct (target x) as [l0|].
  - rewrite !elem_of_cons. intros [->|Hl]; eauto.
  - eauto.
Qed.

(** C9: whatever the input and however the call ends, [run] leaves the
    instance as it was, keeps every Document of the store with its
    identifier, content, meta and remaining attributes, adds or removes no
    Document, and leaves a Document that the input list does not name
    untouched, embedding included. *)
Theorem run_changes_embeddings_only (documents : PyArg) (w : World) :
  this (run documents w).2 = this w ∧
  ∀ l, option_Forall2 same_but_embedding
         (heap w !! l) (heap (run documents w).2 !! l) ∧
       (l ∉ arg_refs documents →
        heap (run documents w).2 !! l = heap w !! l).
Proof.
  assert (Hrefl : ∀ l, option_Forall2 same_but_embedding
                         (heap w !! l) (heap w !! l)).
  { intros l. destruct (heap w !! l); constructor. by repeat split. }
  unfold run. unfold_monad. cbv beta iota.
  destruct (rejected (heap w) documents); [by simpl|].
  destruct (embedding_backend (this w)) as [b|]; [|by simpl].
  destruct documents as [v|docs]; [by simpl|].
  pose proof (build_texts_frame (this w) docs [] w) as Hframe.
  destruct (build_texts (this w) docs [] w) as [[e|texts] w1];
    simpl in Hframe; subst w1; [by simpl|].
  simpl.
  destruct (embed b texts _ _ _) as [e|embeddings]; [by simpl|].
  match goal with
  | |- context [assign_all ?ps ?w1] =>
      destruct (assign_all_frame ps w1) as (Hthis & _ & Hheap);
      destruct (assign_all ps w1) as [[e|[]] w2]; simpl in *
  end.
  - split; [done|]. intros l. destruct (Hheap l) as [Hsame Hother].
    split; [done|]. intros Hl. apply Hother.
    intros Hin. by apply Hl, (refs_zip_fst _ embeddings).
  - split; [done|]. intros l. destruct (Hheap l) as [Hsame Hother].
    split; [done|]. intros Hl. apply Hother.
    intros Hin. by apply Hl, (refs_zip_fst _ embeddings).
Qed.

(** *** Loading the backend *)

Section WarmUp.

Variable get_embedding_backend :
  string → string → option Secret → PyExc + EmbeddingBackend.

(** C6: with a backend already on the instance, [warm_up] changes nothing
    and does not call the factory; without one it calls the factory once,
    with the stored model, device and token, and stores the backend it
    returns, leaving every other field as it was; hence a second [warm_up]
    adds nothing to the first. *)
Theorem warm_up_idempotent (w : World) :
  (∀ b, embedding_backend (this w) = Some b →
        warm_up get_embedding_backend w = (inr tt, w)) ∧
  (∀ b, embedding_backend (this w) = None →
        get_embedding_backend (model (this w)) (device (this w))
          (token (this w)) = inr b →
        warm_up get_embedding_backend w =
          (inr tt,
           {| this := {| model := model (this w);
                         device := device (this w);
                         token := token (this w);
                         prefix := prefix (this w);
                         suffix := suffix (this w);
                         batch_size := batch_size (this w);
                         progress_bar := progress_bar (this w);
                         normalize_embeddings := normalize_embeddings (this w);
                         meta_fields_to_embed := meta_fields_to_embed (this w);
                         embedding_separator := embedding_separator (this w);
                         embedding_backend := Some b |};
              heap := heap w;
              calls := (calls w ++
                [FactoryCall (model (this w)) (device (this w))
                   (token (this w))])%list |})) ∧
  (warm_up get_embedding_backend ;; warm_up get_embedding_backend) w =
    warm_up get_embedding_backend w.
Proof.
  split; [|split].
  - intros b Hwarm. unfold warm_up, has_backend. unfold_monad.
    rewrite Hwarm. by destruct w.
  - intros b Hcold Hfactory. unfold warm_up, has_backend. unfold_monad.
    rewrite Hcold. simpl. by rewrite Hfactory.
  - unfold warm_up, has_backend. unfold_monad.
    destruct (embedding_backend (this w)) as [b|] eqn:Hb; simpl.
    + by rewrite Hb.
    + by destruct (get_embedding_backend _ _ _) as [e|b].
Qed.

End WarmUp.

Lemma warm_up_idempotent_witness :
  warm_up Examples.position_factory Examples.warm_world =
    (inr tt, Examples.warm_world) ∧
  warm_up Examples.position_factory Examples.cold_world =
    (inr tt, Examples.warm_world).
Proof.
  split.
  - apply (proj1 (warm_up_idempotent Examples.position_factory
                    Examples.warm_world) Examples.position_backend).
    reflexivity.
  - apply (proj1 (proj2 (warm_up_idempotent Examples.position_factory
                           Examples.cold_world))
             Examples.position_backend); reflexivity.
Defined.

Example warm_up_factory_failure :
  warm_up Examples.failing_factory Examples.cold_world =
    (inl (ExternalError "model not found"),
     {| this := this Examples.cold_world;
        heap := heap Examples.cold_world;
        calls := [FactoryCall "sentence-transformers/all-mpnet-base-v2" "cpu"
                    (Some (EnvVarSecret ["HF_API_TOKEN"] false))] |}).
Proof. reflexivity. Qed.

End EmbedderFacts.

(** ** Properties of the prompt builder *)

Module PromptBuilderFacts.
Import PromptBuilder.

Section WithJinja.

Context {Tmpl Ast : Type}.
Variable Template : string → PyExc + Tmpl.
Variable environment_parse : Tmpl → string → PyExc + Ast.
Variable find_undeclared_variables : Ast → gset string.
Variable render : Tmpl → gmap string PyVal → PyExc + string.

Abbreviation init := (init Template environment_parse find_undeclared_variables).
Abbreviation from_dict :=
  (from_dict Template environment_parse find_undeclared_variables).
Abbreviation run := (run render).

Lemma register_all_template order (self : Component Tmpl) :
  _template_string (register_all order self) = _template_string self ∧
  template (register_all order self) = template self.
Proof.
  induction order as [|var order [IH1 IH2]]; simpl; [done|].
  by rewrite IH1, IH2.
Qed.

Lemma register_all_lookup order (self : Component Tmpl) name :
  inputs (register_all order self) !! name =
    if decide (name ∈ order) then Some (slot_of name)
    else inputs self !! name.
Proof.
  induction order as [|var order IH].
  - destruct (decide (name ∈ [])) as [Hin|_]; [|done].
    by apply elem_of_nil in Hin.
  - cbn [register_all foldr set_input_type inputs].
    fold (register_all order self).
    destruct (decide (var = name)) as [->|Hne].
    + rewrite lookup_insert_eq.
      destruct (decide (name ∈ name :: order)) as [_|Hnotin]; [done|].
      destruct Hnotin. left.
    + rewrite lookup_insert_ne by done. rewrite IH.
      destruct (decide (name ∈ order)) as [Hin|Hnotin];
        destruct (decide (name ∈ var :: order)) as [Hin'|Hnotin']; try done.
      * destruct Hnotin'. by right.
      * apply elem_of_cons in Hin' as [?|?]; congruence.
Qed.

Lemma init_unfold t tmpl ast :
  Template t = inr tmpl → environment_parse tmpl t = inr ast →
  init t =
    inr (register_all (elements (find_undeclared_variables ast))
           {| _template_string := t; template := tmpl; inputs := ∅ |}).
Proof. intros Ht Hp. unfold PromptBuilder.init. by rewrite Ht, Hp. Qed.

(** C7: for a template that the engine compiles and parses, with set V of
    undeclared variables, the constructor registers one input slot per name
    of V and none besides (the declared names are V, as many slots as
    names, in whatever order the loop visits V), each of type [Any]; but
    the slot is registered with the empty string as its default value, so
    it is not mandatory: the code does not register the required inputs
    that the claim and the docstring of the class describe. *)
Theorem init_registers_undeclared_variables (t : string) (tmpl : Tmpl)
    (ast : Ast) :
  Template t = inr tmpl →
  environment_parse tmpl t = inr ast →
  ∃ self,
    init t = inr self ∧
    dom (inputs self) = find_undeclared_variables ast ∧
    size (inputs self) = size (find_undeclared_variables ast) ∧
    (∀ name, name ∈ find_undeclared_variables ast →
             inputs self !! name = Some (slot_of name)) ∧
    (∀ name socket, inputs self !! name = Some socket →
       socket_name socket = name ∧ socket_type socket = Any ∧
       default_value socket = Some (VStr "") ∧
       is_mandatory socket = false) ∧
    (∀ order, order ≡ₚ elements (find_undeclared_variables ast) →
       inputs (register_all order
                 {| _template_string := t; template := tmpl; inputs := ∅ |}) =
       inputs self).
Proof.
  intros Ht Hp. eexists. split; [by apply init_unfold|].
  set (V := find_undeclared_variables ast).
  set (self0 := {| _template_string := t; template := tmpl; inputs := ∅ |}).
  assert (Hdom : dom (inputs (register_all (elements V) self0)) = V).
  { apply set_eq. intros name. rewrite elem_of_dom, register_all_lookup.
    destruct (decide (name ∈ elements V)) as [Hin|Hnotin].
    - apply elem_of_elements in Hin. split; eauto.
    - simpl. rewrite lookup_empty. split.
      + by intros [? ?].
      + intros Hin. by apply elem_of_elements in Hin. }
  split; [exact Hdom|]. split; [|split; [|split]].
  - by rewrite <- size_dom, Hdom.
  - intros name Hin. rewrite register_all_lookup.
    rewrite decide_True; [done|]. by apply elem_of_elements.
  - intros name socket. rewrite register_all_lookup.
    destruct (decide (name ∈ elements V)) as [_|_].
    + by intros [= <-].
    + simpl. by rewrite lookup_empty.
  - intros order Hperm. apply map_eq. intros name.
    rewrite !register_all_lookup.
    destruct (decide (name ∈ order)) as [Hin|Hnotin].
    + rewrite decide_True; [done|]. by rewrite <- Hperm.
    + rewrite decide_False; [done|]. by rewrite <- Hperm.
Qed.

Lemma init_template_string t self :
  init t = inr self → _template_string self = t.
Proof.
  unfold PromptBuilder.init.
  destruct (Template t) as [e|tmpl]; [discriminate|].
  destruct (environment_parse tmpl t) as [e|ast]; [discriminate|].
  intros [= <-].
  exact (proj1 (register_all_template
                  (elements (find_undeclared_variables ast)) _)).
Qed.

(** C8: the configuration record that [to_dict] produces holds the type
    name and the original template string and nothing else; rebuilding an
    instance from it gives the instance that was serialized, so the
    declared inputs are the same and [run] returns the same result on every
    input mapping. *)
Theorem to_dict_from_dict_round_trip (t : string) (self : Component Tmpl) :
  init t = inr self →
  to_dict self =
    {| config_type := class_name;
       init_parameters := {[ "template" := VStr t ]} |} ∧
  from_dict (to_dict self) = inr self ∧
  (∀ self', from_dict (to_dict self) = inr self' →
     inputs self' = inputs self ∧
     ∀ kwargs, run self' kwargs = run self kwargs).
Proof.
  intros Hinit.
  assert (Hdict : to_dict self =
            {| config_type := class_name;
               init_parameters := {[ "template" := VStr t ]} |}).
  { unfold to_dict, default_to_dict.
    by rewrite (init_template_string _ _ Hinit). }
  assert (Hback : from_dict (to_dict self) = inr self).
  { rewrite Hdict. unfold PromptBuilder.from_dict, default_from_dict.
    simpl config_type. rewrite String.eqb_refl.
    unfold init_kwargs. simpl init_parameters.
    rewrite lookup_singleton_eq, dom_singleton_L.
    by rewrite bool_decide_eq_true_2. }
  split; [exact Hdict|]. split; [exact Hback|].
  intros self' Hself'. rewrite Hback in Hself'. by injection Hself' as <-.
Qed.

End WithJinja.

Example translate_prompt :
  match init MiniEngine.Template MiniEngine.environment_parse
          MiniEngine.find_undeclared_variables
          MiniEngine.translate_template with
  | inl e => inl e
  | inr self => run MiniEngine.render self MiniEngine.translate_inputs
  end =
  inr {[ "prompt" := "Translate to spanish. Context: I can't speak spanish." ]}.
Proof. vm_compute. reflexivity. Qed.

Lemma init_registers_undeclared_variables_witness :
  ∃ self,
    init MiniEngine.Template MiniEngine.environment_parse
      MiniEngine.find_undeclared_variables MiniEngine.translate_template =
      inr self ∧
    dom (inputs self) = {[ "target_language"; "snippet" ]} ∧
    is_mandatory <$> inputs self !! "snippet" = Some false.
Proof.
  destruct (init_registers_undeclared_variables MiniEngine.Template
              MiniEngine.environment_parse
              MiniEngine.find_undeclared_variables
              MiniEngine.translate_template
              [MiniEngine.Text "Translate to ";
               MiniEngine.Var "target_language";
               MiniEngine.Text ". Context: "; MiniEngine.Var "snippet";
               MiniEngine.Text ""]
              [MiniEngine.Text "Translate to ";
               MiniEngine.Var "target_language";
               MiniEngine.Text ". Context: "; MiniEngine.Var "snippet";
               MiniEngine.Text ""]
              eq_refl eq_refl)
    as (self & Hinit & Hdom & _ & Hslot & _).
  exists self. split; [exact Hinit|]. split.
  - rewrite Hdom. apply set_eq. intros name.
    unfold MiniEngine.find_undeclared_variables. simpl.
    set_solver.
  - rewrite (Hslot "snippet"); [reflexivity|].
    unfold MiniEngine.find_undeclared_variables. simpl. set_solver.
Defined.

Lemma to_dict_from_dict_round_trip_witness :
  ∃ self,
    from_dict MiniEngine.Template MiniEngine.environment_parse
      MiniEngine.find_undeclared_variables (to_dict self) = inr self ∧
    init_parameters (to_dict self) =
      {[ "template" := VStr MiniEngine.translate_template ]}.
Proof.
  destruct (init MiniEngine.Template MiniEngine.environment_parse
              MiniEngine.find_undeclared_variables
              MiniEngine.translate_template) as [e|self] eqn:Hinit.
  { vm_compute in Hinit. discriminate. }
  exists self.
  destruct (to_dict_from_dict_round_trip MiniEngine.Template
              MiniEngine.environment_parse
              MiniEngine.find_undeclared_variables MiniEngine.render
              MiniEngine.translate_template self Hinit)
    as (Hdict & Hback & _).
  split; [exact Hback|]. by rewrite Hdict.
Defined.

End PromptBuilderFacts.

(** ** Further properties of the embedder *)

Module EmbedderExtras.
Import Embedder EmbedderFacts.
Local Open Scope py_scope.

(** The embedding last assigned to [l] by the assignments [pairs]. *)
Definition last_embedding (pairs : list (nat * list float)) (l : nat)
    : option (list float) :=
  foldl (λ acc p, if decide (p.1 = l) then Some p.2 else acc) None pairs.


(** The call that [run] makes to the backend for the texts [texts]. *)
Definition embed_call (self : Component) (texts : list string) : Call :=
  EmbedCall texts (batch_size self) (progress_bar self)
    (normalize_embeddings self).

(** A backend that always raises. *)
Definition failing_backend : EmbeddingBackend :=
  {| embed := λ _ _ _ _, inl (ExternalError "out of memory") |}.

(** A backend that returns a vector for the first text only. *)
Definition short_backend : EmbeddingBackend :=
  {| embed := λ texts _ _ _, inr (take 1 ((λ _, [1%float]) <$> texts)) |}.

Definition world_with (b : EmbeddingBackend) : World :=
  {| this := with_backend b Examples.meta_embedder;
     heap := heap Examples.cold_world;
     calls := [] |}.

(** A Document with a title and no content. *)
Definition doc_title_only : Document :=
  {| doc_id := "d2"; content := None; meta := {[ "title" := VStr "Food" ]};
     embedding := None; doc_rest := ∅ |}.

Definition resolves (h : gmap nat Document) (locs : list nat)
    (ds : list Document) : Prop :=
  Forall2 (λ l d, h !! l = Some d) locs ds.

Lemma resolves_mapM h locs ds :
  resolves h locs ds → mapM (deref h) (ERef <$> locs) = Some ds.
Proof. intros Hds. apply mapM_Some. by apply Forall2_fmap_l. Qed.

Lemma resolves_is_Some h locs ds :
  resolves h locs ds → Forall (λ l, is_Some (h !! l)) locs.
Proof.
  intros Hds. apply Forall_forall. intros l Hl.
  apply list_elem_of_lookup in Hl as [i Hi].
  destruct (Forall2_lookup_l _ _ _ _ _ Hds Hi) as (d & _ & Hd). eauto.
Qed.

(** The whole outcome of a [run] in which the backend returns. *)
Lemma run_ok locs ds b embeddings w :
  resolves (heap w) locs ds →
  embedding_backend (this w) = Some b →
  embed b (text_to_embed (this w) <$> ds) (batch_size (this w))
    (progress_bar (this w)) (normalize_embeddings (this w)) = inr embeddings →
  run (AList (ERef <$> locs)) w =
    (inr {[ "documents" := AList (ERef <$> locs) ]},
     {| this := this w;
        heap := write_all (heap w) (zip locs embeddings);
        calls := (calls w ++
                  [embed_call (this w) (text_to_embed (this w) <$> ds)])%list |}).
Proof.
  intros Hds Hwarm Hembed.
  pose proof (resolves_mapM _ _ _ Hds) as HmapM.
  unfold run, embed_call. unfold_monad. cbv beta iota.
  rewrite (mapM_deref_rejected _ _ _ HmapM), Hwarm.
  rewrite (build_texts_ok _ _ ds [] w HmapM). simpl.
  rewrite Hembed. rewrite assign_all_ok; [done|].
  by eapply resolves_is_Some.
Qed.


Lemma zip_fst_take (locs : list nat) (embs : list (list float)) :
  (zip locs embs).*1 = take (length embs) locs.
Proof.
  revert embs. induction locs as [|l locs IH]; intros [|e embs]; simpl;
    try done.
  by rewrite IH.
Qed.

(** *** Construction *)

(** X1: the constructor stores every argument as given, with two
    defaults: a device that is [None] or the empty string becomes "cpu"
    and any other device is kept, so the stored device is never empty;
    absent meta fields become the empty list and given ones are kept.  No
    backend is attached. *)
Theorem init_defaults (model : string) (device : option string)
    (token : option Secret) (prefix suffix : string) (batch_size : Z)
    (progress_bar normalize_embeddings : bool)
    (fields : option (list string)) (separator : string) :
  let self := init model device token prefix suffix batch_size progress_bar
                normalize_embeddings fields separator in
  Embedder.device self ≠ "" ∧
  (∀ d, device = Some d → d ≠ "" → Embedder.device self = d) ∧
  (device = None ∨ device = Some "" → Embedder.device self = "cpu") ∧
  (∀ given, fields = Some given → meta_fields_to_embed self = given) ∧
  (fields = None → meta_fields_to_embed self = []) ∧
  Embedder.model self = model ∧
  Embedder.token self = token ∧
  Embedder.prefix self = prefix ∧
  Embedder.suffix self = suffix ∧
  Embedder.batch_size self = batch_size ∧
  Embedder.progress_bar self = progress_bar ∧
  Embedder.normalize_embeddings self = normalize_embeddings ∧
  embedding_separator self = separator ∧
  embedding_backend self = None.
Proof.
  simpl.
  split; [by destruct device as [[|a r]|]|].
  split; [intros d -> Hd; by destruct d|].
  split; [intros [->| ->]; done|].
  split; [by intros given ->|].
  split; [by intros ->|].
  repeat split.
Qed.

Lemma init_defaults_witness :
  device (init "m" (Some "") None "" "" 32 true false None "") = "cpu" ∧
  device (init "m" (Some "cuda") None "" "" 32 true false (Some ["title"]) "")
    = "cuda" ∧
  meta_fields_to_embed
    (init "m" (Some "cuda") None "" "" 32 true false (Some ["title"]) "")
    = ["title"] ∧
  meta_fields_to_embed (init "m" (Some "") None "" "" 32 true false None "")
    = [].
Proof.
  pose proof (init_defaults "m" (Some "") None "" "" 32 true false None "")
    as (_ & _ & Hcpu & _ & Hnone & _).
  pose proof (init_defaults "m" (Some "cuda") None "" "" 32 true false
                (Some ["title"]) "")
    as (_ & Hkept & _ & Hgiven & _).
  split; [apply Hcpu; by right|].
  split; [by apply Hkept|].
  split; [by apply Hgiven|by apply Hnone].
Defined.

(** X2: [run] on an embedder that has just been constructed never returns
    a result: whatever the constructor arguments, the input and the store,
    it raises the [TypeError] of the guard or the not-ready
    [RuntimeError], and leaves the state as it was. *)
Theorem run_on_fresh_instance_raises (model : string)
    (device : option string) (token : option Secret) (prefix suffix : string)
    (batch_size : Z) (progress_bar normalize_embeddings : bool)
    (fields : option (list string)) (separator : string)
    (h : gmap nat Document) (log : list Call) (documents : PyArg) :
  let w := {| this := init model device token prefix suffix batch_size
                       progress_bar normalize_embeddings fields separator;
              heap := h; calls := log |} in
  run documents w =
    (inl (if rejected h documents then TypeError type_error_message
          else RuntimeError not_loaded_message), w).
Proof.
  simpl. unfold run. unfold_monad. simpl.
  by destruct (rejected h documents).
Qed.

(** *** Failures inside [run] *)



Example run_duck_list_warm :
  (run Examples.duck_list Examples.warm_world).1 =
    inr {[ "documents" := Examples.duck_list ]} ∧
  embedding <$> heap (run Examples.duck_list Examples.warm_world).2 !! 1 =
    Some (Some [1%float; 1%float]).
Proof. split; reflexivity. Qed.

(** X4: when the backend raises, [run] raises the same exception after
    logging its one call to the backend, and no Document is modified. *)
Theorem run_backend_failure (locs : list nat) (ds : list Document)
    (b : EmbeddingBackend) (e : PyExc) (w : World) :
  resolves (heap w) locs ds →
  embedding_backend (this w) = Some b →
  embed b (text_to_embed (this w) <$> ds) (batch_size (this w))
    (progress_bar (this w)) (normalize_embeddings (this w)) = inl e →
  run (AList (ERef <$> locs)) w =
    (inl e,
     {| this := this w; heap := heap w;
        calls := (calls w ++
                  [embed_call (this w) (text_to_embed (this w) <$> ds)])%list |}).
Proof.
  intros Hds Hwarm Hembed.
  pose proof (resolves_mapM _ _ _ Hds) as HmapM.
  unfold run, embed_call. unfold_monad. cbv beta iota.
  rewrite (mapM_deref_rejected _ _ _ HmapM), Hwarm.
  rewrite (build_texts_ok _ _ ds [] w HmapM). simpl.
  by rewrite Hembed.
Qed.

Lemma run_backend_failure_witness :
  run (AList (ERef <$> [0; 1])) (world_with failing_backend) =
    (inl (ExternalError "out of memory"),
     {| this := this (world_with failing_backend);
        heap := heap (world_with failing_backend);
        calls := [embed_call Examples.meta_embedder
                    ["hello"; "Food" ++ Examples.newline ++ "2024" ++
                               Examples.newline ++ "I love pizza!"]] |}).
Proof.
  apply (run_backend_failure [0; 1] [Examples.doc_hello; Examples.doc_pizza]
           failing_backend (ExternalError "out of memory")
           (world_with failing_backend)).
  - repeat constructor.
  - reflexivity.
  - reflexivity.
Defined.

(** *** Fewer or more vectors than Documents *)

(** X5: [run] does not compare the number of vectors with the number of
    Documents: it succeeds, assigns to the Documents that have a vector,
    and a Document outside the first [len(embeddings)] positions keeps the
    embedding it had. *)
Theorem run_assigns_as_many_as_returned (locs : list nat)
    (ds : list Document) (b : EmbeddingBackend)
    (embeddings : list (list float)) (w : World) :
  resolves (heap w) locs ds →
  embedding_backend (this w) = Some b →
  embed b (text_to_embed (this w) <$> ds) (batch_size (this w))
    (progress_bar (this w)) (normalize_embeddings (this w)) = inr embeddings →
  (run (AList (ERef <$> locs)) w).1 =
    inr {[ "documents" := AList (ERef <$> locs) ]} ∧
  ∀ l, l ∉ take (length embeddings) locs →
       heap (run (AList (ERef <$> locs)) w).2 !! l = heap w !! l.
Proof.
  intros Hds Hwarm Hembed.
  rewrite (run_ok _ _ _ _ _ Hds Hwarm Hembed). simpl. split; [done|].
  intros l Hl. apply write_all_other. by rewrite zip_fst_take.
Qed.

Lemma run_assigns_as_many_as_returned_witness :
  (run (AList (ERef <$> [0; 1])) (world_with short_backend)).1 =
    inr {[ "documents" := AList (ERef <$> [0; 1]) ]} ∧
  heap (run (AList (ERef <$> [0; 1])) (world_with short_backend)).2 !! 1 =
    Some Examples.doc_pizza.
Proof.
  destruct (run_assigns_as_many_as_returned [0; 1]
              [Examples.doc_hello; Examples.doc_pizza] short_backend
              [[1%float]] (world_with short_backend))
    as [Hres Hkeep].
  - repeat constructor.
  - reflexivity.
  - reflexivity.
  - split; [exact Hres|]. rewrite Hkeep; [reflexivity|].
    simpl. intros Hin. apply list_elem_of_singleton in Hin. discriminate.
Defined.

(** *** Running twice *)

Lemma set_embedding_twice e e' (d : option Document) :
  set_embedding e <$> (set_embedding e' <$> d) = set_embedding e <$> d.
Proof. by destruct d. Qed.

Lemma write_all_lookup (h : gmap nat Document) pairs l :
  write_all h pairs !! l =
    match last_embedding pairs l with
    | Some e => set_embedding e <$> h !! l
    | None => h !! l
    end.
Proof.
  induction pairs as [|p pairs IH] using rev_ind; [done|].
  unfold write_all, last_embedding. rewrite !foldl_snoc.
  fold (write_all h pairs). fold (last_embedding pairs l).
  unfold write. destruct (decide (p.1 = l)) as [<-|Hne].
  - rewrite lookup_alter_eq, IH.
    destruct (last_embedding pairs p.1); [|done].
    apply set_embedding_twice.
  - by rewrite lookup_alter_ne.
Qed.

Lemma write_all_twice (h : gmap nat Document) pairs :
  write_all (write_all h pairs) pairs = write_all h pairs.
Proof.
  apply map_eq. intros l. rewrite (write_all_lookup (write_all h pairs)).
  destruct (last_embedding pairs l) as [e|] eqn:Hlast; [|done].
  rewrite write_all_lookup, Hlast. apply set_embedding_twice.
Qed.

Lemma resolves_write_all (h : gmap nat Document) pairs locs ds :
  resolves h locs ds →
  ∃ ds', resolves (write_all h pairs) locs ds' ∧
         ∀ self, text_to_embed self <$> ds' = text_to_embed self <$> ds.
Proof.
  induction 1 as [|l d locs ds Hl _ (ds' & Hds' & Htexts)].
  { exists []. split; [constructor|done]. }
  destruct (last_embedding pairs l) as [e|] eqn:Hlast.
  - exists (set_embedding e d :: ds'). split.
    + constructor; [|done]. by rewrite write_all_lookup, Hlast, Hl.
    + intros self. simpl. by rewrite Htexts.
  - exists (d :: ds'). split.
    + constructor; [|done]. by rewrite write_all_lookup, Hlast, Hl.
    + intros self. simpl. by rewrite Htexts.
Qed.

(** X6: the text of a Document does not depend on its embedding, so a
    second [run] on the same list sends the backend the same texts, and,
    the backend returning the same vectors, ends with the same result and
    the same Documents as the first: only the log shows the two calls. *)
Theorem run_twice (locs : list nat) (ds : list Document)
    (b : EmbeddingBackend) (embeddings : list (list float)) (w : World) :
  resolves (heap w) locs ds →
  embedding_backend (this w) = Some b →
  embed b (text_to_embed (this w) <$> ds) (batch_size (this w))
    (progress_bar (this w)) (normalize_embeddings (this w)) = inr embeddings →
  let documents := AList (ERef <$> locs) in
  let call := embed_call (this w) (text_to_embed (this w) <$> ds) in
  (run documents ;; run documents) w =
    (inr {[ "documents" := documents ]},
     {| this := this w;
        heap := heap (run documents w).2;
        calls := (calls w ++ [call; call])%list |}).
Proof.
  intros Hds Hwarm Hembed documents call. unfold bind.
  unfold documents. rewrite (run_ok _ _ _ _ _ Hds Hwarm Hembed).
  destruct (resolves_write_all (heap w) (zip locs embeddings) _ _ Hds)
    as (ds' & Hds' & Htexts).
  match goal with
  | |- run _ ?w1 = _ =>
      rewrite (run_ok locs ds' b embeddings w1);
        [| exact Hds' | exact Hwarm | simpl; by rewrite Htexts ]
  end.
  simpl. rewrite Htexts, write_all_twice, <- app_assoc. done.
Qed.

Lemma run_twice_witness :
  calls ((run (AList (ERef <$> [0])) ;; run (AList (ERef <$> [0])))
           Examples.warm_world).2 =
    (calls Examples.warm_world ++
     [EmbedCall ["Q: hello /Q"] 32 true false;
      EmbedCall ["Q: hello /Q"] 32 true false])%list.
Proof.
  rewrite (run_twice [0] [Examples.doc_hello] Examples.position_backend
             [[0%float; 1%float]] Examples.warm_world);
    [reflexivity | repeat constructor | reflexivity | reflexivity].
Defined.

(** *** What [run] calls *)

Lemma build_texts_length self xs acc w texts w' :
  build_texts self xs acc w = (inr texts, w') →
  length texts = length acc + length xs.
Proof.
  revert acc. induction xs as [|x xs IH]; intros acc; simpl.
  - unfold_monad. intros [= <- _]. lia.
  - unfold text_of_elem. unfold_monad.
    destruct (attributes (heap w) x) as [d|]; simpl.
    + intros Hrest. rewrite (IH _ Hrest), length_app. simpl. lia.
    + by destruct (meta_fields_to_embed self).
Qed.

(** X7: whatever its input and outcome, [run] never calls the backend
    factory and calls the backend at most once: the log is either
    unchanged or longer by one [embed] call, which carries the instance's
    batch size and flags and one text per element of the list. *)
Theorem run_calls_backend_at_most_once (documents : PyArg) (w : World) :
  calls (run documents w).2 = calls w ∨
  ∃ xs texts,
    documents = AList xs ∧ length texts = length xs ∧
    calls (run documents w).2 =
      (calls w ++ [embed_call (this w) texts])%list.
Proof.
  unfold run, embed_call. unfold_monad. cbv beta iota.
  destruct (rejected (heap w) documents); [by left|].
  destruct (embedding_backend (this w)) as [b|]; [|by left].
  destruct documents as [v|xs]; [by left|].
  pose proof (build_texts_frame (this w) xs [] w) as Hframe.
  destruct (build_texts (this w) xs [] w) as [[e|texts] w1] eqn:Hbuild;
    simpl in Hframe; subst w1; [by left|].
  right. exists xs, texts. split; [done|].
  split; [by apply build_texts_length in Hbuild|].
  simpl. destruct (embed b texts _ _ _) as [e|embeddings]; [done|].
  match goal with
  | |- context [assign_all ?ps ?w1] =>
      destruct (assign_all_frame ps w1) as (_ & Hcalls & _);
      destruct (assign_all ps w1) as [[e|[]] w2]; simpl in *; exact Hcalls
  end.
Qed.

(** *** More on [warm_up] *)

Section WarmUp.

Variable get_embedding_backend :
  string → string → option Secret → PyExc + EmbeddingBackend.

(** X8: whatever the factory does, [warm_up] leaves every Document and
    every configuration field of the instance as they were, never calls
    the backend, and calls the factory at most once, with the stored
    model, device and token. *)
Theorem warm_up_frame (w : World) :
  let w' := (warm_up get_embedding_backend w).2 in
  heap w' = heap w ∧
  (calls w' = calls w ∨
   calls w' =
     (calls w ++
      [FactoryCall (model (this w)) (device (this w)) (token (this w))])%list) ∧
  model (this w') = model (this w) ∧
  device (this w') = device (this w) ∧
  token (this w') = token (this w) ∧
  prefix (this w') = prefix (this w) ∧
  suffix (this w') = suffix (this w) ∧
  batch_size (this w') = batch_size (this w) ∧
  progress_bar (this w') = progress_bar (this w) ∧
  normalize_embeddings (this w') = normalize_embeddings (this w) ∧
  meta_fields_to_embed (this w') = meta_fields_to_embed (this w) ∧
  embedding_separator (this w') = embedding_separator (this w).
Proof.
  unfold warm_up, has_backend. unfold_monad.
  destruct (embedding_backend (this w)) as [b|]; simpl.
  - repeat split; auto.
  - destruct (get_embedding_backend _ _ _) as [e|b]; simpl;
      repeat split; auto.
Qed.

(** X9: the serialized configuration and the telemetry data do not
    contain the backend: [warm_up] changes neither, whether the factory
    returns or raises. *)
Theorem to_dict_unchanged_by_warm_up {SecretDict : Type}
    (secret_to_dict : Secret → PyExc + SecretDict) (w : World) :
  to_dict secret_to_dict (this (warm_up get_embedding_backend w).2) =
    to_dict secret_to_dict (this w) ∧
  _get_telemetry_data (this (warm_up get_embedding_backend w).2) =
    _get_telemetry_data (this w).
Proof.
  unfold warm_up, has_backend. unfold_monad.
  destruct (embedding_backend (this w)) as [b|]; simpl; [done|].
  by destruct (get_embedding_backend _ _ _) as [e|b].
Qed.

End WarmUp.

(** X10: a [warm_up] whose factory raises propagates the exception and
    attaches no backend, so the next [warm_up] asks the factory again; if
    that one returns, its backend is stored and the log shows both
    requests. *)
Theorem warm_up_retry_after_failure
    (failing working : string → string → option Secret →
                       PyExc + EmbeddingBackend)
    (e : PyExc) (b : EmbeddingBackend) (w : World) :
  embedding_backend (this w) = None →
  failing (model (this w)) (device (this w)) (token (this w)) = inl e →
  working (model (this w)) (device (this w)) (token (this w)) = inr b →
  let request :=
    FactoryCall (model (this w)) (device (this w)) (token (this w)) in
  let w1 := {| this := this w; heap := heap w;
               calls := (calls w ++ [request])%list |} in
  warm_up failing w = (inl e, w1) ∧
  warm_up working w1 =
    (inr tt, {| this := with_backend b (this w); heap := heap w;
                calls := (calls w ++ [request; request])%list |}).
Proof.
  intros Hcold Hfail Hwork request w1. split.
  - unfold warm_up, has_backend. unfold_monad. rewrite Hcold. simpl.
    by rewrite Hfail.
  - unfold warm_up, has_backend. unfold_monad. simpl. rewrite Hcold. simpl.
    rewrite Hwork. by rewrite <- app_assoc.
Qed.

Lemma warm_up_retry_after_failure_witness :
  warm_up Examples.failing_factory Examples.cold_world =
    (inl (ExternalError "model not found"),
     {| this := this Examples.cold_world; heap := heap Examples.cold_world;
        calls := [FactoryCall "sentence-transformers/all-mpnet-base-v2" "cpu"
                    (Some (EnvVarSecret ["HF_API_TOKEN"] false))] |}).
Proof.
  apply (warm_up_retry_after_failure Examples.failing_factory
           Examples.position_factory (ExternalError "model not found")
           Examples.position_backend Examples.cold_world);
    reflexivity.
Defined.

(** X11: after a [warm_up] whose factory returns, [run] on a list of
    Documents no longer raises the not-ready error: with a backend that
    returns, the two calls in sequence give the list back, and the log
    holds the factory request followed by the one [embed] call. *)
Theorem warm_up_then_run
    (factory : string → string → option Secret → PyExc + EmbeddingBackend)
    (locs : list nat) (ds : list Document) (b : EmbeddingBackend)
    (embeddings : list (list float)) (w : World) :
  embedding_backend (this w) = None →
  factory (model (this w)) (device (this w)) (token (this w)) = inr b →
  resolves (heap w) locs ds →
  embed b (text_to_embed (this w) <$> ds) (batch_size (this w))
    (progress_bar (this w)) (normalize_embeddings (this w)) = inr embeddings →
  (warm_up factory ;; run (AList (ERef <$> locs))) w =
    (inr {[ "documents" := AList (ERef <$> locs) ]},
     {| this := with_backend b (this w);
        heap := write_all (heap w) (zip locs embeddings);
        calls := (calls w ++
          [FactoryCall (model (this w)) (device (this w)) (token (this w));
           embed_call (this w) (text_to_embed (this w) <$> ds)])%list |}).
Proof.
  intros Hcold Hfactory Hds Hembed.
  unfold bind at 1. unfold warm_up, has_backend. unfold_monad.
  rewrite Hcold. simpl. rewrite Hfactory.
  match goal with
  | |- run _ ?w1 = _ =>
      rewrite (run_ok locs ds b embeddings w1);
        [| exact Hds | reflexivity | exact Hembed ]
  end.
  simpl. by rewrite <- app_assoc.
Qed.

Lemma warm_up_then_run_witness :
  ((warm_up Examples.position_factory ;; run (AList (ERef <$> [0])))
     Examples.cold_world).1 =
    inr {[ "documents" := AList (ERef <$> [0]) ]}.
Proof.
  rewrite (warm_up_then_run Examples.position_factory [0]
             [Examples.doc_hello] Examples.position_backend
             [[0%float; 1%float]] Examples.cold_world);
    [reflexivity | reflexivity | reflexivity | repeat constructor
    | reflexivity].
Defined.

(** *** Serialization *)

(** The names of the constructor's parameters. *)
Definition parameter_names : gset string :=
  {[ "model"; "device"; "token"; "prefix"; "suffix"; "batch_size";
     "progress_bar"; "normalize_embeddings"; "meta_fields_to_embed";
     "embedding_separator" ]}.

(** X12: [to_dict] raises exactly when the token's own [to_dict] raises;
    otherwise the record carries the type name and, under the names of the
    ten constructor parameters and no other key, the ten stored fields:
    the token as its [to_dict] returned it, or [None] when the instance
    has no token. *)
Theorem to_dict_records_constructor_arguments {SecretDict : Type}
    (secret_to_dict : Secret → PyExc + SecretDict) (self : Component) :
  (∀ e, to_dict secret_to_dict self = inl e ↔
        ∃ secret, token self = Some secret ∧ secret_to_dict secret = inl e) ∧
  (∀ cfg, to_dict secret_to_dict self = inr cfg →
     config_type cfg = class_name ∧
     dom (init_parameters cfg) = parameter_names ∧
     init_parameters cfg !! "model" = Some (PStr (model self)) ∧
     init_parameters cfg !! "device" = Some (PStr (device self)) ∧
     (token self = None → init_parameters cfg !! "token" = Some PNone) ∧
     (∀ secret, token self = Some secret →
        ∃ d, secret_to_dict secret = inr d ∧
             init_parameters cfg !! "token" = Some (PSecret d)) ∧
     init_parameters cfg !! "prefix" = Some (PStr (prefix self)) ∧
     init_parameters cfg !! "suffix" = Some (PStr (suffix self)) ∧
     init_parameters cfg !! "batch_size" = Some (PInt (batch_size self)) ∧
     init_parameters cfg !! "progress_bar" =
       Some (PBool (progress_bar self)) ∧
     init_parameters cfg !! "normalize_embeddings" =
       Some (PBool (normalize_embeddings self)) ∧
     init_parameters cfg !! "meta_fields_to_embed" =
       Some (PStrList (meta_fields_to_embed self)) ∧
     init_parameters cfg !! "embedding_separator" =
       Some (PStr (embedding_separator self))).
Proof.
  split.
  - intros e. unfold to_dict, token_to_dict. split.
    + destruct (token self) as [secret|]; [|discriminate].
      destruct (secret_to_dict secret) as [e'|d] eqn:Hsecret; [|discriminate].
      intros [= <-]. eauto.
    + intros (secret & -> & ->). done.
  - intros cfg. unfold to_dict, token_to_dict.
    destruct (token self) as [secret|] eqn:Htoken.
    + destruct (secret_to_dict secret) as [e|d] eqn:Hsecret; [discriminate|].
      intros [= <-]. simpl. split; [done|]. split.
      { rewrite !dom_insert_L, dom_empty_L. unfold parameter_names.
        apply set_eq. intros name.
        rewrite !elem_of_union, !elem_of_singleton, elem_of_empty. tauto. }
      repeat split; try done.
      intros secret' [= <-]. exists d. by split.
    + intros [= <-]. simpl. split; [done|]. split.
      { rewrite !dom_insert_L, dom_empty_L. unfold parameter_names.
        apply set_eq. intros name.
        rewrite !elem_of_union, !elem_of_singleton, elem_of_empty. tauto. }
      repeat split; done.
Qed.

Lemma to_dict_records_constructor_arguments_witness :
  ∃ cfg, to_dict (λ s, inr s) Examples.question_embedder = inr cfg ∧
         init_parameters cfg !! "device" = Some (PStr "cpu") ∧
         init_parameters cfg !! "prefix" = Some (PStr "Q: ") ∧
         init_parameters cfg !! "batch_size" = Some (PInt 32).
Proof.
  eexists. split; [reflexivity|].
  pose proof (proj2 (to_dict_records_constructor_arguments
                       (λ s : Secret, @inr PyExc Secret s)
                       Examples.question_embedder) _ eq_refl)
    as (_ & _ & _ & Hdevice & _ & _ & Hprefix & _ & Hbatch & _).
  split; [exact Hdevice|]. split; [exact Hprefix|exact Hbatch].
Defined.

(** *** The text of a Document *)

Lemma string_app_assoc (a b c : string) : (a ++ b) ++ c = a ++ b ++ c.
Proof.
  induction a as [|x a IH]; [done|].
  change (String x ((a ++ b) ++ c) = String x (a ++ b ++ c)).
  by rewrite IH.
Qed.

Lemma join_snoc sep (parts : list string) (last : string) :
  parts ≠ [] → join sep (parts ++ [last]) = join sep parts ++ sep ++ last.
Proof.
  unfold join. induction parts as [|x parts IH]; [done|]. intros _.
  destruct parts as [|y parts]; [done|].
  change (String.concat sep ((x :: y :: parts) ++ [last]))
    with (x ++ sep ++ String.concat sep ((y :: parts) ++ [last])).
  rewrite IH by done.
  change (String.concat sep (x :: y :: parts))
    with (x ++ sep ++ String.concat sep (y :: parts)).
  by rewrite !string_app_assoc.
Qed.

(** X13: the separator joins the selected meta values to the content even
    when the content is unset or empty: with at least one selected value
    the text is prefix + joined values + separator + content + suffix, and
    with none it is prefix + content + suffix, where an unset content
    counts as the empty string. *)
Theorem text_to_embed_shape (self : Component) (doc : Document) :
  let values := meta_values_to_embed (meta_fields_to_embed self) (meta doc) in
  (values = [] →
   text_to_embed self doc =
     prefix self ++ default "" (content doc) ++ suffix self) ∧
  (values ≠ [] →
   text_to_embed self doc =
     prefix self ++ join (embedding_separator self) values ++
     embedding_separator self ++ default "" (content doc) ++ suffix self).
Proof.
  intros values. unfold text_to_embed. fold values.
  rewrite or_empty_default. split.
  - intros ->. done.
  - intros Hvalues. rewrite (join_snoc _ _ _ Hvalues).
    by rewrite !string_app_assoc.
Qed.

Lemma text_to_embed_shape_witness :
  text_to_embed Examples.meta_embedder doc_title_only =
    "Food" ++ Examples.newline.
Proof.
  rewrite (proj2 (text_to_embed_shape Examples.meta_embedder doc_title_only));
    [reflexivity|discriminate].
Defined.

(** X14: the selected meta values follow the order of
    [meta_fields_to_embed], field by field: the values for a concatenation
    of field lists are the concatenation of the values (a field listed
    twice is embedded twice), and there are never more values than
    configured fields. *)
Theorem meta_values_follow_fields (fields1 fields2 : list string)
    (m : gmap string PyVal) :
  meta_values_to_embed (fields1 ++ fields2) m =
    (meta_values_to_embed fields1 m ++ meta_values_to_embed fields2 m)%list ∧
  (length (meta_values_to_embed fields1 m) ≤ length fields1)%nat.
Proof.
  split.
  - induction fields1 as [|key fields1 IH]; simpl; [done|].
    destruct (m !! key) as [v|]; [|done].
    destruct (truthy v); [|done]. simpl. by rewrite IH.
  - induction fields1 as [|key fields1 IH]; simpl; [done|].
    destruct (m !! key) as [v|]; [|lia].
    destruct (truthy v); simpl; lia.
Qed.

End EmbedderExtras.

(** ** Further properties of the prompt builder *)

Module PromptBuilderExtras.
Import PromptBuilder PromptBuilderFacts.

(** A template whose placeholder is not closed. *)
Definition unclosed_template : string := "Hello {{ name".

Section WithJinja.

Context {Tmpl Ast : Type}.
Variable Template : string → PyExc + Tmpl.
Variable environment_parse : Tmpl → string → PyExc + Ast.
Variable find_undeclared_variables : Ast → gset string.
Variable render : Tmpl → gmap string PyVal → PyExc + string.

Abbreviation init := (init Template environment_parse find_undeclared_variables).
Abbreviation run := (run render).

Lemma init_inv t self :
  init t = inr self →
  ∃ tmpl ast,
    Template t = inr tmpl ∧ environment_parse tmpl t = inr ast ∧
    self = register_all (elements (find_undeclared_variables ast))
             {| _template_string := t; template := tmpl; inputs := ∅ |}.
Proof.
  unfold PromptBuilder.init.
  destruct (Template t) as [e|tmpl]; [discriminate|].
  destruct (environment_parse tmpl t) as [e|ast] eqn:Hp; [discriminate|].
  intros [= <-]. by exists tmpl, ast.
Qed.

(** X15: the constructor raises what the engine raises, when compiling or
    when parsing, and builds no instance then; when it returns, the
    instance holds the template string as given and the template that the
    engine compiled from it: the registration loop changes neither. *)
Theorem init_outcome (t : string) :
  (∀ e, Template t = inl e → init t = inl e) ∧
  (∀ tmpl e, Template t = inr tmpl → environment_parse tmpl t = inl e →
             init t = inl e) ∧
  (∀ self, init t = inr self →
           _template_string self = t ∧ Template t = inr (template self)).
Proof.
  split; [|split].
  - intros e He. unfold PromptBuilder.init. by rewrite He.
  - intros tmpl e Ht He. unfold PromptBuilder.init. by rewrite Ht, He.
  - intros self Hinit.
    destruct (init_inv _ _ Hinit) as (tmpl & ast & Ht & _ & ->).
    destruct (register_all_template
                (elements (find_undeclared_variables ast))
                {| _template_string := t; template := tmpl; inputs := ∅ |})
      as [-> ->].
    done.
Qed.

(** X16: [run] renders the template compiled at construction from the
    mapping it is given and does not look at the declared inputs: a
    mapping that lacks declared names or holds undeclared ones goes to the
    engine as it is, the engine's exception is raised unchanged, and a
    result holds the rendered string under the single key [prompt]. *)
Theorem run_renders_compiled_template (t : string) (self : Component Tmpl)
    (tmpl : Tmpl) (kwargs : gmap string PyVal) :
  init t = inr self →
  Template t = inr tmpl →
  (∀ e, render tmpl kwargs = inl e → run self kwargs = inl e) ∧
  (∀ prompt, render tmpl kwargs = inr prompt →
             run self kwargs = inr {[ "prompt" := prompt ]}).
Proof.
  intros Hinit Ht.
  destruct (init_inv _ _ Hinit) as (tmpl' & ast & Ht' & _ & ->).
  rewrite Ht in Ht'. injection Ht' as <-.
  unfold PromptBuilder.run.
  rewrite (proj2 (register_all_template _ _)). simpl.
  split.
  - by intros e ->.
  - by intros prompt ->.
Qed.

(** X17: the declared inputs depend on the template only through its set
    of undeclared variables: two templates with the same set get the same
    input slots. *)
Theorem inputs_depend_on_variables_only (t1 t2 : string)
    (tmpl1 tmpl2 : Tmpl) (ast1 ast2 : Ast) (self1 self2 : Component Tmpl) :
  Template t1 = inr tmpl1 → environment_parse tmpl1 t1 = inr ast1 →
  Template t2 = inr tmpl2 → environment_parse tmpl2 t2 = inr ast2 →
  find_undeclared_variables ast1 = find_undeclared_variables ast2 →
  init t1 = inr self1 → init t2 = inr self2 →
  inputs self1 = inputs self2.
Proof.
  intros Ht1 Hp1 Ht2 Hp2 Hvars Hinit1 Hinit2.
  rewrite (init_unfold _ _ _ _ _ _ Ht1 Hp1) in Hinit1.
  rewrite (init_unfold _ _ _ _ _ _ Ht2 Hp2) in Hinit2.
  injection Hinit1 as <-. injection Hinit2 as <-.
  apply map_eq. intros name. rewrite !register_all_lookup, Hvars. done.
Qed.

End WithJinja.

Lemma init_outcome_witness :
  init MiniEngine.Template MiniEngine.environment_parse
    MiniEngine.find_undeclared_variables unclosed_template =
    inl (TemplateSyntaxError "unexpected end of template").
Proof.
  apply (proj1 (init_outcome MiniEngine.Template MiniEngine.environment_parse
                  MiniEngine.find_undeclared_variables unclosed_template)).
  reflexivity.
Defined.

Lemma run_renders_compiled_template_witness :
  ∃ self,
    init MiniEngine.Template MiniEngine.environment_parse
      MiniEngine.find_undeclared_variables MiniEngine.translate_template =
      inr self ∧
    run MiniEngine.render self {[ "snippet" := VStr "Hola"; "extra" := VInt 1 ]} =
      inr {[ "prompt" := "Translate to . Context: Hola" ]}.
Proof.
  destruct (init MiniEngine.Template MiniEngine.environment_parse
              MiniEngine.find_undeclared_variables
              MiniEngine.translate_template) as [e|self] eqn:Hinit.
  { vm_compute in Hinit. discriminate. }
  exists self. split; [done|].
  eapply (proj2 (run_renders_compiled_template MiniEngine.Template
                   MiniEngine.environment_parse
                   MiniEngine.find_undeclared_variables MiniEngine.render
                   MiniEngine.translate_template self _ _ Hinit eq_refl)).
  reflexivity.
Defined.

Lemma inputs_depend_on_variables_only_witness :
  ∃ self1 self2,
    init MiniEngine.Template MiniEngine.environment_parse
      MiniEngine.find_undeclared_variables "{{ a }} and {{ b }}" = inr self1 ∧
    init MiniEngine.Template MiniEngine.environment_parse
      MiniEngine.find_undeclared_variables "{{b}}, {{a}}, {{b}}" = inr self2 ∧
    inputs self1 = inputs self2.
Proof.
  destruct (init MiniEngine.Template MiniEngine.environment_parse
              MiniEngine.find_undeclared_variables "{{ a }} and {{ b }}")
    as [e|self1] eqn:Hinit1.
  { vm_compute in Hinit1. discriminate. }
  destruct (init MiniEngine.Template MiniEngine.environment_parse
              MiniEngine.find_undeclared_variables "{{b}}, {{a}}, {{b}}")
    as [e|self2] eqn:Hinit2.
  { vm_compute in Hinit2. discriminate. }
  exists self1, self2. split; [done|]. split; [done|].
  eapply (inputs_depend_on_variables_only MiniEngine.Template
            MiniEngine.environment_parse MiniEngine.find_undeclared_variables
            "{{ a }} and {{ b }}" "{{b}}, {{a}}, {{b}}" _ _ _ _ self1 self2
            eq_refl eq_refl eq_refl eq_refl);
    [|exact Hinit1|exact Hinit2].
  apply set_eq. intros name.
  unfold MiniEngine.find_undeclared_variables. simpl. set_solver.
Defined.

End PromptBuilderExtras.
